(** * alarmclock.py: a shallow embedding and its verified properties

    The program parses a time of day given on the command line, resolves
    its next occurrence (today or tomorrow), polls the clock once per
    second until that instant and then plays a sound file.

    The embedding follows the source function by function.  The parts of
    the Python standard library the program calls ([str.strip],
    [datetime.strptime], [datetime.combine], [datetime + timedelta],
    [datetime.strftime]) are embedded first, each in a module of its own,
    then the four functions of [alarmclock.py].

    Conventions of the model:
    - a Python [str] is a [string] whose characters are the code points
      0..255 (Latin-1); strings with code points above 255 are outside the
      model;
    - Python integers are [Z];
    - a function that can raise returns a sum, [inl] carrying the
      exception;
    - [strptime] runs under the C/English locale, whose AM/PM markers are
      "am" and "pm";
    - [strftime] prints the year as the C library of Linux does, without
      leading zeros;
    - the clock and the interrupt signal are inputs: [main] takes the
      instants the clock will read and the point where the signal
      arrives, and returns what the process prints and does and how it
      ends. *)

From Stdlib Require Import ZArith NArith List String Ascii Bool Lia.
Import ListNotations.

Local Open Scope string_scope.
Local Open Scope Z_scope.

(** ** Python strings *)

Module PyStr.

(** Code point of a character. *)
Definition ord (c : ascii) : Z := Z.of_N (N_of_ascii c).

Definition between (lo hi : Z) (c : ascii) : bool :=
  (lo <=? ord c) && (ord c <=? hi).

(** [str.isspace] on one character, which is also what [\s] matches in a
    [str] pattern: TAB..CR, FS..US, space, NEL and NBSP. *)
Definition isspace (c : ascii) : bool :=
  between 9 13 c || between 28 32 c || (ord c =? 133) || (ord c =? 160).

(** What [\d] matches in a [str] pattern: the decimal digits (below code
    point 256 these are "0".."9" only). *)
Definition isdigit (c : ascii) : bool := between 48 57 c.

(** [str.lower] on one character. *)
Definition lower_char (c : ascii) : ascii :=
  if between 65 90 c || (between 192 222 c && negb (ord c =? 215))
  then ascii_of_N (N_of_ascii c + 32)
  else c.

Fixpoint lower (s : string) : string :=
  match s with
  | EmptyString => EmptyString
  | String c s' => String (lower_char c) (lower s')
  end.

Fixpoint lstrip (s : string) : string :=
  match s with
  | EmptyString => EmptyString
  | String c s' => if isspace c then lstrip s' else s
  end.

Fixpoint rstrip (s : string) : string :=
  match s with
  | EmptyString => EmptyString
  | String c s' =>
      match rstrip s' with
      | EmptyString => if isspace c then EmptyString else String c EmptyString
      | r => String c r
      end
  end.

(** [s.strip()] *)
Definition strip (s : string) : string := rstrip (lstrip s).

Definition digit_value (c : ascii) : option Z :=
  if isdigit c then Some (ord c - 48) else None.

Fixpoint int_from (acc : Z) (s : string) : option Z :=
  match s with
  | EmptyString => Some acc
  | String c s' =>
      match digit_value c with
      | Some d => int_from (10 * acc + d) s'
      | None => None
      end
  end.

(** [int(s)] on a string of decimal digits; [None] stands for the
    [ValueError] raised on anything else. *)
Definition int (s : string) : option Z :=
  match s with
  | EmptyString => None
  | _ => int_from 0 s
  end.

(** The character of a digit value 0..9. *)
Definition digit_char (d : Z) : ascii := ascii_of_N (Z.to_N (48 + d)).

(** [s[n:]] *)
Fixpoint drop (n : nat) (s : string) : string :=
  match n, s with
  | O, _ => s
  | S n', String _ s' => drop n' s'
  | S _, EmptyString => EmptyString
  end.

(** [s[:n]] *)
Fixpoint take (n : nat) (s : string) : string :=
  match n, s with
  | S n', String c s' => String c (take n' s')
  | _, _ => EmptyString
  end.

(** [s.startswith(p)] *)
Definition startswith (s p : string) : bool := String.prefix p s.

End PyStr.

(** ** The fragment of [re] that [_strptime] generates

    [re.match] anchors at the start of the subject only and explores
    alternatives left to right, greedy repetition first; the first way of
    matching the whole pattern wins.  The matcher below is written in
    continuation-passing style so that a failure further right backtracks
    into the alternatives and repetitions to its left, as the [re] engine
    does. *)

Module Re.

Inductive cset : Type :=
| Digit                    (* \d *)
| Space                    (* \s *)
| Range (lo hi : ascii).   (* [lo-hi] *)

Inductive regex : Type :=
| Eps
| Lit (c : ascii)
| Set_ (cs : cset)
| Cat (r1 r2 : regex)
| Alt (r1 r2 : regex)
| Plus (cs : cset)                    (* cs+ , greedy *)
| Group (name : ascii) (r : regex).   (* (?P<name>r) *)

Definition in_cset (cs : cset) (c : ascii) : bool :=
  match cs with
  | Digit => PyStr.isdigit c
  | Space => PyStr.isspace c
  | Range lo hi => PyStr.between (PyStr.ord lo) (PyStr.ord hi) c
  end.

(** Literal comparison under the IGNORECASE flag. *)
Definition lit_eq (c d : ascii) : bool :=
  Ascii.eqb (PyStr.lower_char c) (PyStr.lower_char d).

(** The named groups matched so far, most recent first. *)
Definition groups : Type := list (ascii * string).

Section Matcher.
Context {A : Type}.

Definition orelse (x y : option A) : option A :=
  match x with
  | Some _ => x
  | None => y
  end.

(** Greedy [cs+]: at least one character, as many as possible first. *)
Fixpoint plus (cs : cset) (s : string) (k : string -> option A) : option A :=
  match s with
  | EmptyString => None
  | String c s' =>
      if in_cset cs c then orelse (plus cs s' k) (k s') else None
  end.

Fixpoint rmatch (r : regex) (s : string) (g : groups)
         (k : string -> groups -> option A) : option A :=
  match r with
  | Eps => k s g
  | Lit c =>
      match s with
      | String d s' => if lit_eq c d then k s' g else None
      | EmptyString => None
      end
  | Set_ cs =>
      match s with
      | String d s' => if in_cset cs d then k s' g else None
      | EmptyString => None
      end
  | Cat r1 r2 => rmatch r1 s g (fun s' g' => rmatch r2 s' g' k)
  | Alt r1 r2 => orelse (rmatch r1 s g k) (rmatch r2 s g k)
  | Plus cs => plus cs s (fun s' => k s' g)
  | Group name r1 =>
      rmatch r1 s g
        (fun s' g' =>
           k s' ((name, PyStr.take (String.length s - String.length s') s) :: g'))
  end.
End Matcher.

(** [re.match(r, s)]: the unconsumed rest of [s] (so that [found.end()]
    is [len(s) - len(rest)]) and [found.groupdict()] in pattern order. *)
Definition match_ (r : regex) (s : string) : option (string * groups) :=
  rmatch r s [] (fun rest g => Some (rest, rev g)).

Fixpoint get (name : ascii) (g : groups) : option string :=
  match g with
  | [] => None
  | (n, v) :: g' => if Ascii.eqb n name then Some v else get name g'
  end.

(** A literal word, character by character. *)
Fixpoint word (w : string) : regex :=
  match w with
  | EmptyString => Eps
  | String c EmptyString => Lit c
  | String c w' => Cat (Lit c) (word w')
  end.

End Re.

(** ** [datetime]: dates, times of day and instants *)

Module Datetime.

Record date : Type := mkdate { year : Z; month : Z; day : Z }.

Record time : Type :=
  mktime { hour : Z; minute : Z; second : Z; microsecond : Z }.

(** A naive [datetime]: a calendar date and a time of day. *)
Record datetime : Type := mkdatetime { date_of : date; time_of : time }.

Definition MINYEAR : Z := 1.
Definition MAXYEAR : Z := 9999.

Definition is_leap (y : Z) : bool :=
  (y mod 4 =? 0) && (negb (y mod 100 =? 0) || (y mod 400 =? 0)).

Definition days_in_month (y m : Z) : Z :=
  if m =? 2 then (if is_leap y then 29 else 28)
  else if (m =? 4) || (m =? 6) || (m =? 9) || (m =? 11) then 30
  else 31.

(** The values the constructors of [date] and [time] accept. *)
Definition valid_date (d : date) : Prop :=
  MINYEAR <= year d <= MAXYEAR /\ 1 <= month d <= 12 /\
  1 <= day d <= days_in_month (year d) (month d).

Definition valid_time (t : time) : Prop :=
  0 <= hour t <= 23 /\ 0 <= minute t <= 59 /\ 0 <= second t <= 59 /\
  0 <= microsecond t <= 999999.

(** [datetime.combine(d, t)] *)
Definition combine (d : date) (t : time) : datetime := mkdatetime d t.

(** Ordering: Python compares the tuples
    (year, month, day, hour, minute, second, microsecond). *)
Definition lex (c1 c2 : comparison) : comparison :=
  match c1 with
  | Eq => c2
  | _ => c1
  end.

Definition date_cmp (a b : date) : comparison :=
  lex (year a ?= year b) (lex (month a ?= month b) (day a ?= day b)).

Definition time_cmp (a b : time) : comparison :=
  lex (hour a ?= hour b)
    (lex (minute a ?= minute b)
       (lex (second a ?= second b) (microsecond a ?= microsecond b))).

Definition cmp (a b : datetime) : comparison :=
  lex (date_cmp (date_of a) (date_of b)) (time_cmp (time_of a) (time_of b)).

(** [a <= b], [a < b], [a >= b] *)
Definition leb (a b : datetime) : bool :=
  match cmp a b with
  | Gt => false
  | _ => true
  end.

Definition ltb (a b : datetime) : bool :=
  match cmp a b with
  | Lt => true
  | _ => false
  end.

Definition geb (a b : datetime) : bool := leb b a.

Definition lt (a b : datetime) : Prop := cmp a b = Lt.
Definition le (a b : datetime) : Prop := cmp a b <> Gt.

(** The calendar day after [d], with the month and year roll-over. *)
Definition next_day (d : date) : date :=
  if day d <? days_in_month (year d) (month d)
  then mkdate (year d) (month d) (day d + 1)
  else if month d <? 12
       then mkdate (year d) (month d + 1) 1
       else mkdate (year d + 1) 1 1.

Inductive error : Type :=
| OverflowError (msg : string).

(** [d + timedelta(days=1)] on a date: the next calendar day, or
    [OverflowError] past the last day of [MAXYEAR]. *)
Definition date_succ (d : date) : error + date :=
  let d' := next_day d in
  if year d' <=? MAXYEAR then inr d' else inl (OverflowError "date value out of range").

(** [timedelta(days=n)] for [n >= 0]. *)
Record timedelta : Type := mktimedelta { days : nat }.

Fixpoint date_add_days (d : date) (n : nat) : error + date :=
  match n with
  | O => inr d
  | S n' =>
      match date_succ d with
      | inl e => inl e
      | inr d' => date_add_days d' n'
      end
  end.

(** [dt + delta]: the time of day is kept, the date moves by whole
    days. *)
Definition add (dt : datetime) (delta : timedelta) : error + datetime :=
  match date_add_days (date_of dt) (days delta) with
  | inl e => inl e
  | inr d => inr (mkdatetime d (time_of dt))
  end.

(** The proleptic Gregorian ordinal of a date ([date.toordinal]):
    day 1 is 0001-01-01. *)
Definition days_before_year (y : Z) : Z :=
  let y1 := y - 1 in
  y1 * 365 + y1 / 4 - y1 / 100 + y1 / 400.

Fixpoint days_before_month_nat (y : Z) (m : nat) : Z :=
  match m with
  | O => 0
  | S m' => days_before_month_nat y m' + days_in_month y (Z.of_nat m)
  end.

Definition days_before_month (y m : Z) : Z :=
  days_before_month_nat y (Z.to_nat (m - 1)).

Definition toordinal (d : date) : Z :=
  days_before_year (year d) + days_before_month (year d) (month d) + day d.

(** Zero-padded decimal fields as [strftime] prints them. *)
Definition pad2 (n : Z) : string :=
  String (PyStr.digit_char (n / 10 mod 10))
    (String (PyStr.digit_char (n mod 10)) EmptyString).

Definition pad4 (n : Z) : string :=
  String (PyStr.digit_char (n / 1000 mod 10))
    (String (PyStr.digit_char (n / 100 mod 10)) (pad2 n)).

(** The year as %Y prints it with the C library of Linux: in decimal,
    without leading zeros, so that years before 1000 take fewer than
    four characters. *)
Definition year_text (y : Z) : string :=
  if y <? 10 then String (PyStr.digit_char (y mod 10)) EmptyString
  else if y <? 100 then pad2 y
  else if y <? 1000 then String (PyStr.digit_char (y / 100 mod 10)) (pad2 y)
  else pad4 y.

Definition strftime_directive (c : ascii) (dt : datetime) : option string :=
  if Ascii.eqb c "Y" then Some (year_text (year (date_of dt)))
  else if Ascii.eqb c "m" then Some (pad2 (month (date_of dt)))
  else if Ascii.eqb c "d" then Some (pad2 (day (date_of dt)))
  else if Ascii.eqb c "H" then Some (pad2 (hour (time_of dt)))
  else if Ascii.eqb c "M" then Some (pad2 (minute (time_of dt)))
  else if Ascii.eqb c "S" then Some (pad2 (second (time_of dt)))
  else None.

(** [dt.strftime(fmt)] for the numeric directives %Y %m %d %H %M %S; any
    other directive is copied through unchanged. *)
Fixpoint strftime (fmt : string) (dt : datetime) : string :=
  match fmt with
  | EmptyString => EmptyString
  | String "%" (String c rest) =>
      match strftime_directive c dt with
      | Some s => s ++ strftime rest dt
      | None => String "%" (String c (strftime rest dt))
      end
  | String c rest => String c (strftime rest dt)
  end.

End Datetime.

(** ** [_strptime]: format string to regex, regex match to fields *)

Module Strptime.
Import Re.

(** The am/pm markers of the locale ([LocaleTime.am_pm]). *)
Definition am_pm : string * string := ("am", "pm").

(** [TimeRE.__getitem__] for the directives the program uses:
    - %H  (?P<H>2[0-3]|[0-1]\d|\d)
    - %I  (?P<I>1[0-2]|0[1-9]|[1-9])
    - %M  (?P<M>[0-5]\d|\d)
    - %p  (?P<p>am|pm) *)
Definition directive (c : ascii) : option regex :=
  if Ascii.eqb c "H" then
    Some (Group "H" (Alt (Cat (Lit "2") (Set_ (Range "0" "3")))
                    (Alt (Cat (Set_ (Range "0" "1")) (Set_ Digit))
                         (Set_ Digit))))
  else if Ascii.eqb c "I" then
    Some (Group "I" (Alt (Cat (Lit "1") (Set_ (Range "0" "2")))
                    (Alt (Cat (Lit "0") (Set_ (Range "1" "9")))
                         (Set_ (Range "1" "9")))))
  else if Ascii.eqb c "M" then
    Some (Group "M" (Alt (Cat (Set_ (Range "0" "5")) (Set_ Digit))
                         (Set_ Digit)))
  else if Ascii.eqb c "p" then
    Some (Group "p" (Alt (word (fst am_pm)) (word (snd am_pm))))
  else None.

(** [TimeRE.pattern]: a run of whitespace in the format becomes [\s+], a
    directive becomes its regex, any other character stands for itself.
    [after_space] tells that the previous character of the format was
    whitespace too. *)
Fixpoint pattern_from (after_space : bool) (fmt : string) : option regex :=
  match fmt with
  | EmptyString => Some Eps
  | String "%" EmptyString => None
  | String "%" (String c rest) =>
      match directive c, pattern_from false rest with
      | Some r, Some r' => Some (Cat r r')
      | _, _ => None
      end
  | String c rest =>
      if PyStr.isspace c then
        match pattern_from true rest with
        | Some r' => Some (if after_space then r' else Cat (Plus Space) r')
        | None => None
        end
      else
        match pattern_from false rest with
        | Some r' => Some (Cat (Lit c) r')
        | None => None
        end
  end.

Definition pattern (fmt : string) : option regex := pattern_from false fmt.

(** The three ways [_strptime] raises [ValueError]. *)
Inductive error : Type :=
| BadDirective                            (* "... is a bad directive in format ..." *)
| NoMatch                                 (* "time data ... does not match format ..." *)
| UnconvertedData (rest : string).        (* "unconverted data remains: ..." *)

(** The loop over [found_dict]: each group sets its field. *)
Definition set_field (g : groups) (hm : Z * Z) (kv : ascii * string) : Z * Z :=
  let '(h, m) := hm in
  let '(key, text) := kv in
  let n := match PyStr.int text with Some n => n | None => 0 end in
  if Ascii.eqb key "H" then (n, m)
  else if Ascii.eqb key "I" then
    let ampm := match get "p" g with
                | Some a => PyStr.lower a
                | None => EmptyString
                end in
    if String.eqb ampm "" || String.eqb ampm (fst am_pm)
    then ((if n =? 12 then 0 else n), m)
    else if String.eqb ampm (snd am_pm)
         then ((if negb (n =? 12) then n + 12 else n), m)
         else (n, m)
  else if Ascii.eqb key "M" then (h, n)
  else (h, m).

(** [datetime.strptime(data, fmt)].  Fields that the format does not
    mention keep their defaults: 1900-01-01, 00:00:00. *)
Definition strptime (data fmt : string) : error + Datetime.datetime :=
  match pattern fmt with
  | None => inl BadDirective
  | Some re =>
      match match_ re data with
      | None => inl NoMatch
      | Some (String c rest, _) => inl (UnconvertedData (String c rest))
      | Some (EmptyString, g) =>
          let '(h, m) := fold_left (set_field g) g (0, 0) in
          inr (Datetime.mkdatetime (Datetime.mkdate 1900 1 1)
                                   (Datetime.mktime h m 0 0))
      end
  end.

End Strptime.

(** ** alarmclock.py *)

Module Alarmclock.
Import Datetime.

(** The exceptions the program raises or lets through.  A [ValueError]
    keeps the exception it was raised [from]. *)
Inductive exn : Type :=
| ValueError (msg : string) (cause : option Strptime.error)
| FileNotFoundError (msg : string)
| RuntimeError (msg : string)
| Overflow (msg : string)            (* OverflowError *)
| KeyboardInterrupt.

(** [str(e)] *)
Definition str (e : exn) : string :=
  match e with
  | ValueError msg _ => msg
  | FileNotFoundError msg => msg
  | RuntimeError msg => msg
  | Overflow msg => msg
  | KeyboardInterrupt => EmptyString
  end.

Definition DEFAULT_TIME : string := "7:00 AM".
Definition DEFAULT_SOUND : string := "alarm.aif".
Definition INTERVAL_SECONDS : Z := 1.

(** *** parse_target_time *)

Definition parse_formats : list string :=
  ["%I:%M %p"; "%I:%M%p"; "%H:%M"; "%H%M"; "%I %p"; "%I%M %p"].

(** The [for fmt in parse_formats] loop with its try/except. *)
Fixpoint try_formats (timestr : string) (fmts : list string)
         (last_exc : option Strptime.error) : exn + time :=
  match fmts with
  | [] => inl (ValueError ("Unrecognized time format: '" ++ timestr ++ "'") last_exc)
  | fmt :: fmts' =>
      match Strptime.strptime timestr fmt with
      | inr dt => inr (time_of dt)
      | inl e => try_formats timestr fmts' (Some e)
      end
  end.

Definition parse_target_time (timestr : string) : exn + time :=
  let timestr := PyStr.strip timestr in
  try_formats timestr parse_formats None.

(** *** play_sound *)

(** What the host offers to [play_sound]: the platform name, the file
    system, and how each playback call ends. *)
Inductive call : Type :=
| Playsound (path : string)             (* from playsound import playsound; playsound(path) *)
| Subprocess (argv : list string).      (* subprocess.run(argv, check=True, ...) *)

Inductive ending : Type :=
| Completed       (* returned normally *)
| Raised          (* raised some [Exception] *)
| Interrupted.    (* raised [KeyboardInterrupt] *)

Record host : Type :=
  mkhost { platform : string;                 (* sys.platform *)
           expanduser : string -> string;     (* os.path.expanduser *)
           isfile : string -> bool;           (* os.path.isfile *)
           perform : call -> ending }.

(** How a block of [play_sound] is left: by [return], by falling
    through to the next statement, or by an exception. *)
Inductive flow : Type :=
| Return_
| Fall
| Raise (e : exn).

(** A block's run: the calls it made, and how it was left. *)
Definition run : Type := list call * flow.

(** [try: c; return  except Exception: pass] *)
Definition attempt (h : host) (c : call) : run :=
  ([c], match perform h c with
        | Completed => Return_
        | Raised => Fall
        | Interrupted => Raise KeyboardInterrupt
        end).

(** Sequencing: the second block runs only if the first falls through. *)
Definition seq (r1 r2 : run) : run :=
  match r1 with
  | (t1, Fall) => ((t1 ++ fst r2)%list, snd r2)
  | _ => r1
  end.

Infix ">>" := seq (at level 61, left associativity).

Definition skip : run := ([], Fall).

(** [if cond: block] *)
Definition when (cond : bool) (block : run) : run :=
  if cond then block else skip.

(** [for cmd in cmds: try: run(cmd); return  except Exception: continue] *)
Fixpoint for_each (h : host) (cmds : list call) : run :=
  match cmds with
  | [] => skip
  | c :: cmds' => attempt h c >> for_each h cmds'
  end.

Definition ps_cmd (soundfile : string) : string :=
  "[console]::beep(750,300);" ++
  "(New-Object Media.SoundPlayer '" ++ soundfile ++ "').PlaySync();".

Definition play_sound (h : host) (soundfile : string) : run :=
  let soundfile := expanduser h soundfile in
  if negb (isfile h soundfile) then
    ([], Raise (FileNotFoundError ("Sound file not found: " ++ soundfile)))
  else
    attempt h (Playsound soundfile)
    >> when (String.eqb (platform h) "darwin")
         (attempt h (Subprocess ["afplay"; soundfile]))
    >> when (PyStr.startswith (platform h) "linux")
         (for_each h [Subprocess ["paplay"; soundfile];
                      Subprocess ["aplay"; soundfile];
                      Subprocess ["ffplay"; "-nodisp"; "-autoexit"; soundfile]])
    >> when (PyStr.startswith (platform h) "win")
         (attempt h (Subprocess ["powershell"; "-Command"; ps_cmd soundfile]))
    >> ([], Raise (RuntimeError
          "No available method to play sound on this system. Install 'playsound' or ensure a command-line player is available.")).

(** *** confirm_target_today

    [now] is the value [datetime.now()] returns inside the function. *)
Definition confirm_target_today (now : datetime) (target_time : time)
  : exn + datetime :=
  let candidate := combine (date_of now) target_time in
  if leb candidate now then
    match add candidate (mktimedelta 1) with
    | inr candidate' => inr candidate'
    | inl (OverflowError msg) => inl (Overflow msg)
    end
  else inr candidate.

(** *** main *)

(** What the process does that can be observed from outside. *)
Inductive event : Type :=
| Print (line : string)
| Sleep (seconds : Z)
| Trigger (soundfile : string)     (* play_sound(soundfile) is entered *)
| Try (c : call).                  (* a playback mechanism is attempted *)

(** How the process ends.  [Running] says that the environment's script
    ended before the program did: it is still in its loop. *)
Inductive outcome : Type :=
| Exit (code : Z)        (* sys.exit(code) *)
| Finished               (* main returned: exit status 0 *)
| Uncaught (e : exn)     (* traceback: exit status 1 *)
| Running.

Definition exit_status (o : outcome) : option Z :=
  match o with
  | Exit code => Some code
  | Finished => Some 0
  | Uncaught _ => Some 1
  | Running => None
  end.

(** One turn of the [while True] loop as the environment decides it:
    either the interrupt arrives while the clock is read, or the clock
    reads [now], and the [time.sleep] that may follow either completes
    or is interrupted. *)
Inductive nap : Type := Slept | Woken.

Inductive poll : Type :=
| Sigint
| Clock (now : datetime) (sleep : nap).

Definition newline : string := String (ascii_of_nat 10) EmptyString.

Definition cancelled : list event * outcome :=
  ([Print (newline ++ "Alarm cancelled by user.")], Exit 0).

Definition prepend (evs : list event) (r : list event * outcome)
  : list event * outcome :=
  ((evs ++ fst r)%list, snd r).

(** The body of the outer [try]. *)
Fixpoint wait_loop (h : host) (soundfile : string) (alarm_dt : datetime)
         (polls : list poll) : list event * outcome :=
  match polls with
  | [] => ([], Running)
  | Sigint :: _ => cancelled
  | Clock now sleep :: polls' =>
      if geb now alarm_dt then
        let '(calls, fl) := play_sound h soundfile in
        prepend (Print "Alarm time reached. Playing sound..."
                   :: Trigger soundfile :: map Try calls)
          match fl with
          | Raise KeyboardInterrupt => cancelled
          | Raise e => ([Print ("Failed to play sound: " ++ str e)], Exit 3)
          | Return_ | Fall => ([Print "Done."], Finished)
          end
      else
        prepend [Sleep INTERVAL_SECONDS]
          match sleep with
          | Woken => cancelled
          | Slept => wait_loop h soundfile alarm_dt polls'
          end
  end.

(** The environment of one run of the program. *)
Record world : Type :=
  mkworld { sys_argv : list string;
            sys_host : host;
            start : datetime;        (* the clock when the alarm is resolved *)
            polls : list poll }.     (* the clock and the signals afterwards *)

Definition main (w : world) : list event * outcome :=
  let args := tl (sys_argv w) in
  let '(target_str, soundfile) :=
    match args with
    | [] => (DEFAULT_TIME, DEFAULT_SOUND)
    | [a] => (a, DEFAULT_SOUND)
    | a :: b :: _ => (a, b)
    end in
  match parse_target_time target_str with
  | inl e =>
      ([Print ("Error: " ++ str e);
        Print "Accepted formats: 7:00 AM, 07:00, 10:00 PM, 22:00, etc."],
       Exit 2)
  | inr target_time =>
      match confirm_target_today (start w) target_time with
      | inl e => ([], Uncaught e)
      | inr alarm_dt =>
          let alarm_str := strftime "%Y-%m-%d %H:%M:%S" alarm_dt in
          prepend [Print ("Alarm set for: " ++ alarm_str);
                   Print ("Sound file: " ++ soundfile)]
            (wait_loop (sys_host w) soundfile alarm_dt (polls w))
      end
  end.

End Alarmclock.

(** ** Vocabulary of the statements *)

Module Spec.
Import Datetime Alarmclock.

(** A TimeOfDay: hour 0-23, minute 0-59, no seconds. *)
Definition TimeOfDay (t : time) : Prop :=
  0 <= hour t <= 23 /\ 0 <= minute t <= 59 /\ second t = 0 /\ microsecond t = 0.

(** [datetime.max.date()], the last day a [datetime] can hold. *)
Definition last_day : date := mkdate 9999 12 31.

(** The target string [main] reads from the command line. *)
Definition target_of (w : world) : string := hd DEFAULT_TIME (tl (sys_argv w)).

(** The sound file [main] reads from the command line. *)
Definition sound_of (w : world) : string :=
  hd DEFAULT_SOUND (tl (tl (sys_argv w))).

(** [needle in hay] *)
Fixpoint contains (hay needle : string) : bool :=
  String.prefix needle hay ||
  match hay with
  | EmptyString => false
  | String _ hay' => contains hay' needle
  end.

(** Decimal spelling of 0..99 without padding. *)
Definition dec (n : Z) : string :=
  if n <? 10 then String (PyStr.digit_char n) EmptyString else pad2 n.

(** The playback mechanisms of a platform in their fallback order. *)
Definition mechanisms (platform soundfile : string) : list call :=
  ([Playsound soundfile]
   ++ (if String.eqb platform "darwin"
       then [Subprocess ["afplay"; soundfile]] else [])
   ++ (if PyStr.startswith platform "linux"
       then [Subprocess ["paplay"; soundfile];
             Subprocess ["aplay"; soundfile];
             Subprocess ["ffplay"; "-nodisp"; "-autoexit"; soundfile]]
       else [])
   ++ (if PyStr.startswith platform "win"
       then [Subprocess ["powershell"; "-Command"; ps_cmd soundfile]]
       else []))%list.

Definition no_method : exn :=
  RuntimeError
    "No available method to play sound on this system. Install 'playsound' or ensure a command-line player is available.".

(** The event is neither the trigger nor a playback attempt. *)
Definition silent (ev : event) : Prop :=
  match ev with
  | Trigger _ | Try _ => False
  | _ => True
  end.

(** What follows the first blank of a string. *)
Fixpoint after_blank (s : string) : string :=
  match s with
  | EmptyString => EmptyString
  | String c s' => if Ascii.eqb c " " then s' else after_blank s'
  end.

(** The "HH:MM" field of a "YYYY-MM-DD HH:MM:SS" stamp: the five
    characters after the blank, however many the year takes. *)
Definition hour_minute_of (stamp : string) : string :=
  PyStr.take 5 (after_blank stamp).

(** Integer ranges, for the statements that are checked case by case. *)
Fixpoint upto (lo : Z) (n : nat) : list Z :=
  match n with
  | O => []
  | S n' => lo :: upto (lo + 1) n'
  end.

Definition time_eqb (a b : time) : bool :=
  (hour a =? hour b) && (minute a =? minute b) &&
  (second a =? second b) && (microsecond a =? microsecond b).

Definition parses_to (s : string) (t : time) : bool :=
  match parse_target_time s with
  | inr t' => time_eqb t' t
  | inl _ => false
  end.

Definition fails_on (s fmt : string) : bool :=
  match Strptime.strptime s fmt with
  | inr _ => false
  | inl _ => true
  end.

Definition strptime_gives (s fmt : string) (t : time) : bool :=
  match Strptime.strptime s fmt with
  | inr dt => time_eqb (time_of dt) t
  | inl _ => false
  end.

(** The 24-hour value of hour [h] of the 12-hour clock. *)
Definition hour_am (h : Z) : Z := if h =? 12 then 0 else h.
Definition hour_pm (h : Z) : Z := if h =? 12 then 12 else h + 12.

(** The checks behind the statements over all hours and minutes. *)
Definition twelve_hour_ok (h m : Z) : bool :=
  forallb (fun hh =>
             parses_to (hh ++ ":" ++ pad2 m ++ " AM") (mktime (hour_am h) m 0 0) &&
             parses_to (hh ++ ":" ++ pad2 m ++ " PM") (mktime (hour_pm h) m 0 0))
          [dec h; pad2 h].

Definition three_digit (h m : Z) : string := String (PyStr.digit_char h) (pad2 m).

Definition three_digit_ok (h m : Z) : bool :=
  let s := three_digit h m in
  parses_to s (mktime h m 0 0) &&
  strptime_gives s "%H%M" (mktime h m 0 0) &&
  forallb (fails_on s) ["%I:%M %p"; "%I:%M%p"; "%H:%M"].

Definition stamp_ok (h m : Z) : bool :=
  parses_to (pad2 h ++ ":" ++ pad2 m) (mktime h m 0 0).

Definition over (hours minutes : list Z) (ok : Z -> Z -> bool) : bool :=
  forallb (fun h => forallb (ok h) minutes) hours.

(** The polls of a wait that nothing disturbs: the clock reads the given
    instants and every sleep completes. *)
Definition quiet (readings : list datetime) : list poll :=
  map (fun t => Clock t Slept) readings.

(** The poll delivers the interrupt before the alarm is due: while the
    clock is read, or in the sleep after a reading earlier than the
    alarm. *)
Definition interrupts (alarm_dt : datetime) (p : poll) : Prop :=
  p = Sigint \/ exists t, p = Clock t Woken /\ lt t alarm_dt.

Definition raised (h : host) (c : call) : Prop := perform h c = Raised.

(** How many sleeps a poll starts. *)
Definition naps (p : poll) : nat :=
  match p with
  | Sigint => 0
  | Clock _ _ => 1
  end.

Definition cancel_line : string := newline ++ "Alarm cancelled by user.".

Definition stamp (dt : datetime) : string := strftime "%Y-%m-%d %H:%M:%S" dt.

End Spec.

(** ** The six templates of accepted time strings *)

Module Template.

(** The parts a template is made of. *)
Inductive item : Type :=
| Hour12      (* the hour of the 12-hour clock, 1-12 *)
| Hour24      (* the hour of the 24-hour clock, 0-23 *)
| Minute      (* the minute, 0-59 *)
| Colon
| Blank
| Marker.     (* AM or PM *)

(** The templates in their order of priority:
    H:MM AM/PM, H:MMAM/PM, HH:MM, HHMM, H AM/PM, HMM AM/PM. *)
Definition templates : list (list item) :=
  [[Hour12; Colon; Minute; Blank; Marker];
   [Hour12; Colon; Minute; Marker];
   [Hour24; Colon; Minute];
   [Hour24; Minute];
   [Hour12; Blank; Marker];
   [Hour12; Minute; Blank; Marker]].

(** Two ways to read a template.  As written: the hour in one or two
    digits, the minute in exactly two, the marker "AM" or "PM", the blank
    one space.  As parsed: the hour in one or two digits, the minute in
    one or two, the marker in any letter case, the blank any non-empty
    run of whitespace. *)
Inductive reading : Type := AsWritten | AsParsed.

(** [t] is a decimal number between [lo] and [hi]. *)
Definition number (lo hi : Z) (t : string) : bool :=
  match PyStr.int t with
  | Some n => (lo <=? n) && (n <=? hi)
  | None => false
  end.

(** The first [k] characters of [s] are such a number. *)
Definition digits (k : nat) (lo hi : Z) (s : string) : bool :=
  (k <=? String.length s)%nat && number lo hi (PyStr.take k s).

Definition marker_ok (r : reading) (t : string) : bool :=
  match r with
  | AsWritten => String.eqb t "AM" || String.eqb t "PM"
  | AsParsed =>
      String.eqb (PyStr.lower t) "am" || String.eqb (PyStr.lower t) "pm"
  end.

(** [s] is made of the items, in order, and nothing more. *)
Fixpoint fits (r : reading) (items : list item) (s : string) : bool :=
  match items with
  | [] =>
      match s with
      | EmptyString => true
      | String _ _ => false
      end
  | it :: rest =>
      match it with
      | Hour12 =>
          digits 1 1 12 s && fits r rest (PyStr.drop 1 s)
          || digits 2 1 12 s && fits r rest (PyStr.drop 2 s)
      | Hour24 =>
          digits 1 0 23 s && fits r rest (PyStr.drop 1 s)
          || digits 2 0 23 s && fits r rest (PyStr.drop 2 s)
      | Minute =>
          match r with
          | AsWritten => false
          | AsParsed => digits 1 0 59 s && fits r rest (PyStr.drop 1 s)
          end
          || digits 2 0 59 s && fits r rest (PyStr.drop 2 s)
      | Colon =>
          match s with
          | String c s' => Ascii.eqb c ":" && fits r rest s'
          | EmptyString => false
          end
      | Blank =>
          match s with
          | String c s' =>
              match r with
              | AsWritten => Ascii.eqb c " " && fits r rest s'
              | AsParsed => PyStr.isspace c && fits r rest (PyStr.lstrip s')
              end
          | EmptyString => false
          end
      | Marker =>
          (2 <=? String.length s)%nat && marker_ok r (PyStr.take 2 s)
          && fits r rest (PyStr.drop 2 s)
      end
  end.

(** [s] fits one of the six templates. *)
Definition admitted (r : reading) (s : string) : bool :=
  existsb (fun tpl => fits r tpl s) templates.

End Template.

(** ** Vocabulary of the further properties *)

Module Laws.
Import Re Datetime Alarmclock Spec.

(** What it means for a regex to match a prefix of [s], leaving [s'] and
    extending the groups [g] to [g']: the relation the matcher
    searches. *)
Inductive Matches : regex -> string -> string -> groups -> groups -> Prop :=
| M_Eps s g : Matches Eps s s g g
| M_Lit c d s g : lit_eq c d = true -> Matches (Lit c) (String d s) s g g
| M_Set cs d s g : in_cset cs d = true -> Matches (Set_ cs) (String d s) s g g
| M_Cat r1 r2 s s1 s2 g g1 g2 :
    Matches r1 s s1 g g1 -> Matches r2 s1 s2 g1 g2 ->
    Matches (Cat r1 r2) s s2 g g2
| M_AltL r1 r2 s s' g g' : Matches r1 s s' g g' -> Matches (Alt r1 r2) s s' g g'
| M_AltR r1 r2 s s' g g' : Matches r2 s s' g g' -> Matches (Alt r1 r2) s s' g g'
| M_PlusOne cs d s g : in_cset cs d = true -> Matches (Plus cs) (String d s) s g g
| M_PlusMore cs d s s' g :
    in_cset cs d = true -> Matches (Plus cs) s s' g g ->
    Matches (Plus cs) (String d s) s' g g
| M_Group name r s s' g g' :
    Matches r s s' g g' ->
    Matches (Group name r) s s' g
            ((name, PyStr.take (String.length s - String.length s') s) :: g').

(** A string of whitespace only. *)
Fixpoint blank (s : string) : bool :=
  match s with
  | EmptyString => true
  | String c s' => PyStr.isspace c && blank s'
  end.

(** How often the sound is triggered in a trace. *)
Fixpoint triggers (evs : list event) : nat :=
  match evs with
  | [] => 0
  | Trigger _ :: evs' => S (triggers evs')
  | _ :: evs' => triggers evs'
  end.

(** How often the process sleeps in a trace. *)
Fixpoint sleeps (evs : list event) : nat :=
  match evs with
  | [] => 0
  | Sleep _ :: evs' => S (sleeps evs')
  | _ :: evs' => sleeps evs'
  end.

(** Every clock reading of the polls is before the alarm. *)
Definition early (alarm_dt : datetime) (p : poll) : Prop :=
  match p with
  | Sigint => True
  | Clock t _ => lt t alarm_dt
  end.

(** *** The readings of the time formats, for the properties checked
    over all hours and minutes *)

Definition rejected (s : string) : bool :=
  match parse_target_time s with
  | inl _ => true
  | inr _ => false
  end.

(** [s] is read as hour [h], minute [m], or rejected. *)
Definition reading (s : string) (expected : option (Z * Z)) : Prop :=
  match expected with
  | Some (h, m) => parse_target_time s = inr (mktime h m 0 0)
  | None => exists e, parse_target_time s = inl e
  end.

Definition reads (s : string) (expected : option (Z * Z)) : bool :=
  match expected with
  | Some (h, m) => parses_to s (mktime h m 0 0)
  | None => rejected s
  end.

Definition tab : string := String (ascii_of_nat 9) EmptyString.

(** The spellings of the markers, with whether they mean PM. *)
Definition markers : list (string * bool) :=
  [("am", false); ("aM", false); ("Am", false); ("AM", false);
   ("pm", true); ("pM", true); ("Pm", true); ("PM", true)].

(** The 24-hour value of hour [h] of the 12-hour clock. *)
Definition to24 (pm : bool) (h : Z) : Z := if pm then hour_pm h else hour_am h.

(** "h:mm" followed by a marker: hours 1-12 and minutes 0-59 only. *)
Definition colon_marker_reading (pm : bool) (h m : Z) : option (Z * Z) :=
  if (1 <=? h) && (h <=? 12) && (m <=? 59) then Some (to24 pm h, m) else None.

Definition colon_marker_ok (h m : Z) : bool :=
  forallb (fun hh =>
  forallb (fun mk =>
             reads (hh ++ ":" ++ pad2 m ++ " " ++ fst mk)
                   (colon_marker_reading (snd mk) h m))
          [("AM", false); ("PM", true)])
          [dec h; pad2 h].

(** The spellings [parse_target_time] takes for one 12-hour time: the
    marker in any case, directly after the minute or after a tab. *)
Definition lenient_ok (h m : Z) : bool :=
  forallb (fun sep =>
  forallb (fun mk =>
             parses_to (dec h ++ ":" ++ pad2 m ++ sep ++ fst mk)
                       (mktime (to24 (snd mk) h) m 0 0))
          markers)
          [EmptyString; tab].

(** "h:mm" on the 24-hour clock: hours 0-23 and minutes 0-59 only. *)
Definition colon_reading (h m : Z) : option (Z * Z) :=
  if (h <=? 23) && (m <=? 59) then Some (h, m) else None.

Definition colon_ok (h m : Z) : bool :=
  forallb (fun hh =>
  forallb (fun mm => reads (hh ++ ":" ++ mm) (colon_reading h m))
          [dec m; pad2 m])
          [dec h; pad2 h].

(** Four digits "hhmm". *)
Definition four_digit_ok (h m : Z) : bool :=
  reads (pad2 h ++ pad2 m) (colon_reading h m).

(** Three digits "abc", given as the digit [a] and the number [m] = bc:
    the hour takes two digits when they make an hour. *)
Definition three_digit_reading (a m : Z) : option (Z * Z) :=
  if 10 * a + m / 10 <=? 23 then Some (10 * a + m / 10, m mod 10)
  else if m <=? 59 then Some (a, m)
  else None.

Definition three_digit_all_ok (a m : Z) : bool :=
  reads (three_digit a m) (three_digit_reading a m).

(** One or two digits and a marker, the number being [n]: an hour 1-12
    when it is one, else the hour and the minute of one digit each. *)
Definition hour_marker_reading (pm : bool) (n : Z) : option (Z * Z) :=
  if (1 <=? n) && (n <=? 12) then Some (to24 pm n, 0)
  else if 10 <=? n then Some (to24 pm (n / 10), n mod 10)
  else None.

Definition hour_marker_ok (n sep : Z) : bool :=
  forallb (fun nn =>
  forallb (fun mk =>
             reads (nn ++ (if sep =? 0 then " " else tab) ++ fst mk)
                   (hour_marker_reading (snd mk) n))
          markers)
          [dec n; pad2 n].

(** Three digits and a marker. *)
Definition three_digit_marker_reading (pm : bool) (a m : Z) : option (Z * Z) :=
  if (1 <=? 10 * a + m / 10) && (10 * a + m / 10 <=? 12)
  then Some (to24 pm (10 * a + m / 10), m mod 10)
  else if (1 <=? a) && (m <=? 59) then Some (to24 pm a, m)
  else None.

Definition three_digit_marker_ok (a m : Z) : bool :=
  forallb (fun mk =>
             reads (three_digit a m ++ " " ++ fst mk)
                   (three_digit_marker_reading (snd mk) a m))
          [("AM", false); ("PM", true)].

(** Four digits and a marker. *)
Definition four_digit_marker_ok (h m : Z) : bool :=
  forallb (fun mk =>
             reads (pad2 h ++ pad2 m ++ " " ++ fst mk)
                   (colon_marker_reading (snd mk) h m))
          [("AM", false); ("PM", true)].

End Laws.

Import Datetime Alarmclock Spec.

(** Closed validity side conditions, settled by evaluation. *)
Ltac valid_by_computation :=
  repeat split; vm_compute; intros; discriminate.

(** ** The ordering of instants *)

Lemma lex_opp (a b : comparison) : CompOpp (lex a b) = lex (CompOpp a) (CompOpp b).
Proof. destruct a; reflexivity. Qed.

Lemma date_cmp_opp (a b : date) : date_cmp b a = CompOpp (date_cmp a b).
Proof.
  unfold date_cmp. rewrite !lex_opp, <- !Z.compare_antisym. reflexivity.
Qed.

Lemma time_cmp_opp (a b : time) : time_cmp b a = CompOpp (time_cmp a b).
Proof.
  unfold time_cmp. rewrite !lex_opp, <- !Z.compare_antisym. reflexivity.
Qed.

Lemma cmp_opp (a b : datetime) : cmp b a = CompOpp (cmp a b).
Proof.
  unfold cmp. rewrite lex_opp, <- date_cmp_opp, <- time_cmp_opp. reflexivity.
Qed.

Lemma date_cmp_refl (d : date) : date_cmp d d = Eq.
Proof. unfold date_cmp. rewrite !Z.compare_refl. reflexivity. Qed.

Lemma leb_false_lt (a b : datetime) : leb a b = false -> lt b a.
Proof.
  unfold leb, lt. rewrite (cmp_opp a b).
  destruct (cmp a b); simpl; congruence.
Qed.

Lemma leb_true_le (a b : datetime) : leb a b = true <-> le a b.
Proof.
  unfold leb, le. destruct (cmp a b); split; congruence.
Qed.

Lemma lt_not_le (a b : datetime) : lt a b -> ~ le b a.
Proof.
  unfold lt, le. rewrite (cmp_opp a b). intros H. rewrite H. simpl. auto.
Qed.

(** ** One calendar day later *)

Lemma next_day_after (d : date) : date_cmp d (next_day d) = Lt.
Proof.
  unfold next_day, date_cmp.
  destruct (day d <? days_in_month (year d) (month d)); simpl.
  - rewrite !Z.compare_refl. simpl. apply Z.compare_lt_iff. lia.
  - destruct (month d <? 12); simpl.
    + rewrite Z.compare_refl. simpl.
      replace (month d ?= month d + 1) with Lt; [reflexivity|].
      symmetry. apply Z.compare_lt_iff. lia.
    + replace (year d ?= year d + 1) with Lt; [reflexivity|].
      symmetry. apply Z.compare_lt_iff. lia.
Qed.

Lemma days_in_month_range (y m : Z) : 28 <= days_in_month y m <= 31.
Proof.
  unfold days_in_month.
  destruct (m =? 2); [destruct (is_leap y); lia|].
  destruct ((m =? 4) || (m =? 6) || (m =? 9) || (m =? 11)); lia.
Qed.

Lemma next_day_valid (d : date) :
  valid_date d -> d <> last_day -> valid_date (next_day d).
Proof.
  destruct d as [y m dd]. unfold valid_date, next_day, MINYEAR, MAXYEAR, last_day. simpl.
  intros (Hy & Hm & Hd) Hne.
  pose proof (days_in_month_range y m) as Hr.
  destruct (dd <? days_in_month y m) eqn:E; simpl.
  - apply Z.ltb_lt in E. lia.
  - apply Z.ltb_ge in E.
    destruct (m <? 12) eqn:E2; simpl.
    + apply Z.ltb_lt in E2. pose proof (days_in_month_range y (m + 1)). lia.
    + apply Z.ltb_ge in E2.
      assert (m = 12) by lia. subst m.
      assert (dd = 31) by (change (days_in_month y 12) with 31 in *; lia). subst dd.
      assert (y <> 9999) by congruence.
      change (days_in_month (y + 1) 1) with 31. lia.
Qed.

Lemma date_succ_ok (d : date) :
  valid_date d -> d <> last_day -> date_succ d = inr (next_day d).
Proof.
  intros Hv Hne. unfold date_succ.
  destruct (next_day_valid d Hv Hne) as ((_ & Hy) & _).
  apply Z.leb_le in Hy. rewrite Hy. reflexivity.
Qed.

Lemma days_before_year_succ (y : Z) :
  days_before_year (y + 1) = days_before_year y + (if is_leap y then 366 else 365).
Proof.
  unfold days_before_year, is_leap.
  replace (y + 1 - 1) with y by lia.
  destruct (y mod 4 =? 0) eqn:E4; destruct (y mod 100 =? 0) eqn:E100;
    destruct (y mod 400 =? 0) eqn:E400; simpl;
    rewrite ?Z.eqb_eq, ?Z.eqb_neq in *;
    Z.div_mod_to_equations; lia.
Qed.

Lemma days_before_month_succ (y m : Z) :
  1 <= m <= 11 ->
  days_before_month y (m + 1) = days_before_month y m + days_in_month y m.
Proof.
  intros Hm. unfold days_before_month.
  replace (m + 1 - 1) with (Z.succ (m - 1)) by lia.
  rewrite Z2Nat.inj_succ by lia. simpl days_before_month_nat.
  f_equal. f_equal. lia.
Qed.

Lemma days_in_year (y : Z) :
  days_before_month y 12 + 31 = if is_leap y then 366 else 365.
Proof.
  unfold days_before_month. simpl. unfold days_in_month. simpl.
  destruct (is_leap y); reflexivity.
Qed.

(** [next_day] is the day whose ordinal is one more. *)
Lemma toordinal_next_day (d : date) :
  valid_date d -> toordinal (next_day d) = toordinal d + 1.
Proof.
  destruct d as [y m dd]. unfold valid_date, next_day, toordinal. simpl.
  intros (Hy & Hm & Hd).
  destruct (dd <? days_in_month y m) eqn:E; simpl; [lia|].
  apply Z.ltb_ge in E. assert (dd = days_in_month y m) by lia. subst dd.
  destruct (m <? 12) eqn:E2; simpl.
  - apply Z.ltb_lt in E2. rewrite days_before_month_succ by lia. lia.
  - apply Z.ltb_ge in E2. assert (m = 12) by lia. subst m.
    rewrite days_before_year_succ.
    change (days_in_month y 12) with 31.
    pose proof (days_in_year y) as Hyr.
    change (days_before_month (y + 1) 1) with 0. lia.
Qed.

(** ** confirm_target_today *)

Lemma confirm_same_day (now : datetime) (target : time) :
  lt now (combine (date_of now) target) ->
  confirm_target_today now target = inr (combine (date_of now) target).
Proof.
  intros Hlt. unfold confirm_target_today.
  destruct (leb (combine (date_of now) target) now) eqn:E; [|reflexivity].
  apply leb_true_le in E. destruct (lt_not_le _ _ Hlt E).
Qed.

Lemma confirm_next_day (now : datetime) (target : time) :
  le (combine (date_of now) target) now ->
  confirm_target_today now target =
    match date_succ (date_of now) with
    | inr d => inr (combine d target)
    | inl (OverflowError msg) => inl (Overflow msg)
    end.
Proof.
  intros Hle. apply leb_true_le in Hle.
  unfold confirm_target_today. rewrite Hle.
  unfold add. simpl. destruct (date_succ (date_of now)) as [[msg]|d]; reflexivity.
Qed.

(** Whatever [confirm_target_today] returns is later than [now]. *)
Lemma confirm_result_after (now : datetime) (target : time) (r : datetime) :
  confirm_target_today now target = inr r -> lt now r.
Proof.
  unfold confirm_target_today.
  destruct (leb (combine (date_of now) target) now) eqn:E.
  - unfold add. simpl. unfold date_succ.
    destruct (year (next_day (date_of now)) <=? MAXYEAR); [|discriminate].
    intros H. injection H as <-. unfold lt, cmp. simpl.
    rewrite next_day_after. reflexivity.
  - intros H. injection H as <-. apply leb_false_lt, E.
Qed.

(** The result keeps the target's time of day. *)
Lemma confirm_result_time (now : datetime) (target : time) (r : datetime) :
  confirm_target_today now target = inr r -> time_of r = target.
Proof.
  unfold confirm_target_today.
  destruct (leb (combine (date_of now) target) now).
  - unfold add. simpl. destruct (date_succ (date_of now)) as [[msg]|d]; [discriminate|].
    intros H. injection H as <-. reflexivity.
  - intros H. injection H as <-. reflexivity.
Qed.

Lemma confirm_returns (now : datetime) (target : time) :
  valid_date (date_of now) -> date_of now <> last_day ->
  exists r, confirm_target_today now target = inr r.
Proof.
  intros Hv Hne. unfold confirm_target_today.
  destruct (leb (combine (date_of now) target) now); [|eauto].
  unfold add. simpl. rewrite (date_succ_ok _ Hv Hne). eauto.
Qed.

(** The two scenarios of the spec. *)
Example next_occurrence_tomorrow :
  confirm_target_today (mkdatetime (mkdate 2024 1 1) (mktime 8 0 0 0)) (mktime 7 0 0 0)
  = inr (mkdatetime (mkdate 2024 1 2) (mktime 7 0 0 0)).
Proof. reflexivity. Qed.

Example next_occurrence_today :
  confirm_target_today (mkdatetime (mkdate 2024 1 1) (mktime 6 0 0 0)) (mktime 7 0 0 0)
  = inr (mkdatetime (mkdate 2024 1 1) (mktime 7 0 0 0)).
Proof. reflexivity. Qed.

(** An instant equal to the target to the microsecond is already too
    late: the alarm is set for tomorrow. *)
Example next_occurrence_on_the_dot :
  confirm_target_today (mkdatetime (mkdate 2023 12 31) (mktime 7 0 0 0)) (mktime 7 0 0 0)
  = inr (mkdatetime (mkdate 2024 1 1) (mktime 7 0 0 0)).
Proof. reflexivity. Qed.

(** C1, as the spec states it, fails on the last day of the calendar:
    at 9999-12-31 08:00:00 with target 07:00 the same-day combination is
    in the past, the day after does not exist, and [OverflowError] is
    raised instead of an instant being returned. *)
Lemma C1_overflow_on_last_day :
  let now := mkdatetime (mkdate 9999 12 31) (mktime 8 0 0 0) in
  let target := mktime 7 0 0 0 in
  valid_date (date_of now) /\ valid_time (time_of now) /\ TimeOfDay target /\
  confirm_target_today now target = inl (Overflow "date value out of range") /\
  ~ (exists r, confirm_target_today now target = inr r /\ lt now r).
Proof.
  cbv zeta. repeat split; try (vm_compute; congruence).
  intros (r & H & _). vm_compute in H. discriminate.
Qed.

(** C1 (amended): for every target time of day and every instant [now],
    except when [now]'s calendar date is 9999-12-31 and the same-day
    combination is less than or equal to [now], [confirm_target_today]
    returns an instant, and that instant is strictly greater than
    [now]. *)
Theorem C1_next_occurrence_after_now (target : time) (now : datetime)
        (Hvalid : valid_date (date_of now))
        (Hdefined : date_of now <> last_day \/
                    lt now (combine (date_of now) target)) :
  exists r, confirm_target_today now target = inr r /\ lt now r.
Proof.
  destruct Hdefined as [Hnotlast | Hlater].
  - destruct (confirm_returns now target Hvalid Hnotlast) as (r & Hr).
    exists r. split; [exact Hr|]. eapply confirm_result_after, Hr.
  - exists (combine (date_of now) target).
    split; [apply confirm_same_day, Hlater | exact Hlater].
Qed.

Lemma C1_next_occurrence_after_now_witness :
  (exists r,
      confirm_target_today (mkdatetime (mkdate 2024 1 1) (mktime 8 0 0 0))
                           (mktime 7 0 0 0) = inr r /\
      lt (mkdatetime (mkdate 2024 1 1) (mktime 8 0 0 0)) r) /\
  (exists r,
      confirm_target_today (mkdatetime (mkdate 9999 12 31) (mktime 6 0 0 0))
                           (mktime 7 0 0 0) = inr r /\
      lt (mkdatetime (mkdate 9999 12 31) (mktime 6 0 0 0)) r).
Proof.
  split.
  - apply (C1_next_occurrence_after_now (mktime 7 0 0 0)
             (mkdatetime (mkdate 2024 1 1) (mktime 8 0 0 0))).
    + valid_by_computation.
    + left. discriminate.
  - apply (C1_next_occurrence_after_now (mktime 7 0 0 0)
             (mkdatetime (mkdate 9999 12 31) (mktime 6 0 0 0))).
    + valid_by_computation.
    + right. reflexivity.
Defined.

(** C2, as the spec states it, fails on the last day of the calendar:
    the combination is not later than [now], yet no instant is
    returned. *)
Lemma C2_no_next_day_after_last_day :
  let now := mkdatetime (mkdate 9999 12 31) (mktime 8 0 0 0) in
  let target := mktime 7 0 0 0 in
  valid_date (date_of now) /\ TimeOfDay target /\
  le (combine (date_of now) target) now /\
  ~ (exists r, confirm_target_today now target = inr r).
Proof.
  cbv zeta. repeat split; try (vm_compute; congruence).
  intros (r & H). vm_compute in H. discriminate.
Qed.

(** C2 (amended): when the same-day combination of [now]'s date with the
    target is strictly greater than [now], it is returned unchanged; when
    it is less than or equal to [now] and [now]'s date is not 9999-12-31,
    the result is the combination moved to the next calendar day: same
    time of day, and a date whose ordinal is one more. *)
Theorem C2_same_day_or_next_day (target : time) (now : datetime)
        (Hvalid : valid_date (date_of now)) :
  let candidate := combine (date_of now) target in
  (lt now candidate -> confirm_target_today now target = inr candidate) /\
  (le candidate now -> date_of now <> last_day ->
   exists r,
     confirm_target_today now target = inr r /\
     r = combine (next_day (date_of now)) target /\
     valid_date (date_of r) /\
     toordinal (date_of r) = toordinal (date_of candidate) + 1).
Proof.
  cbv zeta. split.
  - apply confirm_same_day.
  - intros Hle Hne. exists (combine (next_day (date_of now)) target).
    rewrite (confirm_next_day _ _ Hle), (date_succ_ok _ Hvalid Hne).
    split; [reflexivity|]. split; [reflexivity|]. split.
    + apply next_day_valid; assumption.
    + apply toordinal_next_day, Hvalid.
Qed.

Lemma C2_same_day_or_next_day_witness :
  confirm_target_today (mkdatetime (mkdate 2024 1 1) (mktime 6 0 0 0)) (mktime 7 0 0 0)
    = inr (mkdatetime (mkdate 2024 1 1) (mktime 7 0 0 0)) /\
  exists r,
    confirm_target_today (mkdatetime (mkdate 2024 2 29) (mktime 8 0 0 0)) (mktime 7 0 0 0)
      = inr r /\
    r = mkdatetime (mkdate 2024 3 1) (mktime 7 0 0 0).
Proof.
  split.
  - apply (C2_same_day_or_next_day (mktime 7 0 0 0)
             (mkdatetime (mkdate 2024 1 1) (mktime 6 0 0 0))).
    + valid_by_computation.
    + reflexivity.
  - destruct (C2_same_day_or_next_day (mktime 7 0 0 0)
                (mkdatetime (mkdate 2024 2 29) (mktime 8 0 0 0))) as (_ & H).
    + valid_by_computation.
    + destruct H as (r & Hr & Heq & _).
      * unfold le. vm_compute. discriminate.
      * discriminate.
      * exists r. split; [exact Hr | exact Heq].
Defined.

(** ** Checking a statement over a range of integers *)

Lemma upto_In (n : nat) : forall lo x, lo <= x < lo + Z.of_nat n -> In x (upto lo n).
Proof.
  induction n as [|n IH]; intros lo x Hx.
  - simpl in Hx. lia.
  - simpl. destruct (Z.eq_dec lo x) as [->|Hne]; [left; reflexivity|].
    right. apply IH. lia.
Qed.

Lemma over_sound (ok : Z -> Z -> bool) (hlo mlo : Z) (hn mn : nat) :
  over (upto hlo hn) (upto mlo mn) ok = true ->
  forall h m, hlo <= h < hlo + Z.of_nat hn -> mlo <= m < mlo + Z.of_nat mn ->
              ok h m = true.
Proof.
  unfold over. intros Hall h m Hh Hm.
  rewrite forallb_forall in Hall.
  specialize (Hall h (upto_In hn hlo h Hh)).
  rewrite forallb_forall in Hall.
  apply Hall, upto_In, Hm.
Qed.

Lemma time_eqb_eq (a b : time) : time_eqb a b = true -> a = b.
Proof.
  destruct a, b. unfold time_eqb. simpl.
  rewrite !andb_true_iff, !Z.eqb_eq. intros (((-> & ->) & ->) & ->). reflexivity.
Qed.

Lemma parses_to_eq (s : string) (t : time) :
  parses_to s t = true -> parse_target_time s = inr t.
Proof.
  unfold parses_to. destruct (parse_target_time s) as [e|t']; [discriminate|].
  intros H. apply time_eqb_eq in H. congruence.
Qed.

Lemma fails_on_eq (s fmt : string) :
  fails_on s fmt = true -> exists e, Strptime.strptime s fmt = inl e.
Proof.
  unfold fails_on. destruct (Strptime.strptime s fmt) as [e|dt]; [eauto|discriminate].
Qed.

Lemma strptime_gives_eq (s fmt : string) (t : time) :
  strptime_gives s fmt t = true ->
  exists dt, Strptime.strptime s fmt = inr dt /\ time_of dt = t.
Proof.
  unfold strptime_gives. destruct (Strptime.strptime s fmt) as [e|dt]; [discriminate|].
  intros H. apply time_eqb_eq in H. eauto.
Qed.

(** ** parse_target_time: the loop over the formats *)

Lemma try_formats_first (s : string) (pre : list string) :
  forall (fmt : string) (post : list string) (dt : datetime) last,
    Forall (fun f => exists e, Strptime.strptime s f = inl e) pre ->
    Strptime.strptime s fmt = inr dt ->
    try_formats s (pre ++ fmt :: post) last = inr (time_of dt).
Proof.
  induction pre as [|f pre IH]; intros fmt post dt last Hpre Hfmt; simpl.
  - rewrite Hfmt. reflexivity.
  - inversion Hpre as [|? ? (e & He) Hpre']; subst.
    rewrite He. apply IH; assumption.
Qed.

Lemma try_formats_found (s : string) (fmts : list string) :
  forall last t,
    try_formats s fmts last = inr t ->
    exists pre fmt post dt,
      fmts = (pre ++ fmt :: post)%list /\
      Forall (fun f => exists e, Strptime.strptime s f = inl e) pre /\
      Strptime.strptime s fmt = inr dt /\ t = time_of dt.
Proof.
  induction fmts as [|f fmts IH]; intros last t H; simpl in H; [discriminate|].
  destruct (Strptime.strptime s f) as [e|dt] eqn:E.
  - destruct (IH _ _ H) as (pre & fmt & post & dt & -> & Hpre & Hfmt & ->).
    exists (f :: pre), fmt, post, dt. repeat split; eauto.
  - injection H as <-. exists [], f, fmts, dt. repeat split; auto.
Qed.

Lemma try_formats_none (s : string) (fmts : list string) :
  forall last,
    Forall (fun f => exists e, Strptime.strptime s f = inl e) fmts ->
    exists cause,
      try_formats s fmts last =
        inl (ValueError ("Unrecognized time format: '" ++ s ++ "'") cause).
Proof.
  induction fmts as [|f fmts IH]; intros last Hall; simpl.
  - eauto.
  - inversion Hall as [|? ? (e & He) Hall']; subst. rewrite He. apply IH, Hall'.
Qed.

Lemma try_formats_error (s : string) (fmts : list string) :
  forall last e,
    try_formats s fmts last = inl e ->
    Forall (fun f => exists e', Strptime.strptime s f = inl e') fmts /\
    exists cause, e = ValueError ("Unrecognized time format: '" ++ s ++ "'") cause.
Proof.
  induction fmts as [|f fmts IH]; intros last e H; simpl in H.
  - injection H as <-. split; [constructor | eauto].
  - destruct (Strptime.strptime s f) as [e'|dt] eqn:E; [|discriminate].
    destruct (IH _ _ H) as (Hall & Hcause). split; [|exact Hcause].
    constructor; eauto.
Qed.

(** The formats at work: a single-digit minute and a lower-case marker are
    accepted, any run of whitespace stands for the blank of the format,
    and "%H%M" prefers a two-digit hour when one fits. *)
Example strptime_lenient :
  Strptime.strptime "7:5   pm" "%I:%M %p"
  = inr (mkdatetime (mkdate 1900 1 1) (mktime 19 5 0 0)) /\
  Strptime.strptime "100" "%H%M"
  = inr (mkdatetime (mkdate 1900 1 1) (mktime 10 0 0 0)) /\
  Strptime.strptime "245" "%H%M"
  = inr (mkdatetime (mkdate 1900 1 1) (mktime 2 45 0 0)).
Proof. repeat split. Qed.

(** A match that stops short of the end of the input is a failure of that
    format, not a shorter success. *)
Example strptime_whole_input :
  Strptime.strptime "25:00" "%H%M" = inl (Strptime.UnconvertedData ":00") /\
  Strptime.strptime "7:99 AM" "%H:%M" = inl (Strptime.UnconvertedData "9 AM") /\
  Strptime.strptime "7:00 PMx" "%I:%M %p" = inl (Strptime.UnconvertedData "x") /\
  Strptime.strptime "noon" "%H:%M" = inl Strptime.NoMatch.
Proof. repeat split. Qed.

(** C3, as the spec states it, fails in its last clause: the four results
    are not all equal, since "7:00" is 07:00 and "22:00" is 22:00. *)
Lemma C3_four_results_not_all_equal :
  parse_target_time "7:00" = inr (mktime 7 0 0 0) /\
  parse_target_time "22:00" = inr (mktime 22 0 0 0) /\
  parse_target_time "7:00" <> parse_target_time "22:00".
Proof.
  split; [reflexivity|]. split; [reflexivity|].
  vm_compute. discriminate.
Qed.

(** C3 (amended): [parse_target_time] tries the six formats in the stated
    order on the stripped input and returns the time read by the first
    one that matches all of it; "07:00" and "7:00" both give 07:00,
    "22:00" and "10:00 PM" both give 22:00, so the first two results are
    equal and the last two are equal. *)
Theorem C3_first_matching_format :
  parse_formats = ["%I:%M %p"; "%I:%M%p"; "%H:%M"; "%H%M"; "%I %p"; "%I%M %p"] /\
  (forall s t,
      parse_target_time s = inr t <->
      exists pre fmt post dt,
        parse_formats = (pre ++ fmt :: post)%list /\
        Forall (fun f => exists e, Strptime.strptime (PyStr.strip s) f = inl e) pre /\
        Strptime.strptime (PyStr.strip s) fmt = inr dt /\
        t = time_of dt) /\
  parse_target_time "07:00" = inr (mktime 7 0 0 0) /\
  parse_target_time "7:00" = inr (mktime 7 0 0 0) /\
  parse_target_time "22:00" = inr (mktime 22 0 0 0) /\
  parse_target_time "10:00 PM" = inr (mktime 22 0 0 0) /\
  parse_target_time "07:00" = parse_target_time "7:00" /\
  parse_target_time "22:00" = parse_target_time "10:00 PM".
Proof.
  split; [reflexivity|]. split; [|repeat split; reflexivity].
  intros s t. unfold parse_target_time. split.
  - apply try_formats_found.
  - intros (pre & fmt & post & dt & -> & Hpre & Hfmt & ->).
    apply try_formats_first; assumption.
Qed.

Lemma C3_first_matching_format_witness :
  parse_target_time " 10:00 PM " = inr (mktime 22 0 0 0).
Proof.
  apply (proj1 (proj2 C3_first_matching_format) " 10:00 PM " (mktime 22 0 0 0)).
  exists [], "%I:%M %p", ["%I:%M%p"; "%H:%M"; "%H%M"; "%I %p"; "%I%M %p"],
    (mkdatetime (mkdate 1900 1 1) (mktime 22 0 0 0)).
  repeat split. constructor.
Defined.

(** ** parse_target_time on the 12-hour clock *)

Lemma twelve_hour_table :
  over (upto 1 12) (upto 0 60) twelve_hour_ok = true.
Proof. vm_compute. reflexivity. Qed.

(** C4: for every hour [h] in 1-12, written with or without a leading
    zero, and every minute [m] in 00-59, "h:mm AM" parses to the 24-hour
    time with hour 0 for 12 and [h] otherwise, and "h:mm PM" to hour 12
    for 12 and [h + 12] otherwise, minute [m], no seconds. *)
Theorem C4_twelve_hour_normalised (h m : Z) (hh : string)
        (Hh : 1 <= h <= 12) (Hm : 0 <= m <= 59)
        (Hhh : hh = dec h \/ hh = pad2 h) :
  parse_target_time (hh ++ ":" ++ pad2 m ++ " AM")
    = inr (mktime (if h =? 12 then 0 else h) m 0 0) /\
  parse_target_time (hh ++ ":" ++ pad2 m ++ " PM")
    = inr (mktime (if h =? 12 then 12 else h + 12) m 0 0).
Proof.
  assert (Hok : twelve_hour_ok h m = true).
  { apply (over_sound _ 1 0 12 60 twelve_hour_table); simpl; lia. }
  unfold twelve_hour_ok in Hok. rewrite forallb_forall in Hok.
  specialize (Hok hh). rewrite andb_true_iff in Hok.
  destruct Hok as (Ham & Hpm).
  - simpl. destruct Hhh as [-> | ->]; auto.
  - split; apply parses_to_eq; assumption.
Qed.

Lemma C4_twelve_hour_normalised_witness :
  (parse_target_time "12:00 AM" = inr (mktime 0 0 0 0) /\
   parse_target_time "12:00 PM" = inr (mktime 12 0 0 0)) /\
  (parse_target_time "7:00 AM" = inr (mktime 7 0 0 0) /\
   parse_target_time "7:00 PM" = inr (mktime 19 0 0 0)) /\
  (parse_target_time "07:05 AM" = inr (mktime 7 5 0 0) /\
   parse_target_time "07:05 PM" = inr (mktime 19 5 0 0)).
Proof.
  split; [|split].
  - apply (C4_twelve_hour_normalised 12 0 "12"); [lia | lia | left; reflexivity].
  - apply (C4_twelve_hour_normalised 7 0 "7"); [lia | lia | left; reflexivity].
  - apply (C4_twelve_hour_normalised 7 5 "07"); [lia | lia | right; reflexivity].
Defined.

(** ** parse_target_time: when it fails *)

(** The converse: a failure of [parse_target_time] is always this
    [ValueError], and then no format matched. *)
Lemma parse_error_inv (s : string) (e : exn) :
  parse_target_time s = inl e ->
  Forall (fun f => exists e', Strptime.strptime (PyStr.strip s) f = inl e') parse_formats /\
  exists cause,
    e = ValueError ("Unrecognized time format: '" ++ PyStr.strip s ++ "'") cause.
Proof. apply try_formats_error. Qed.

(** ** parse_target_time on three digits *)

Lemma three_digit_table :
  over (upto 3 7) (upto 0 60) three_digit_ok = true.
Proof. vm_compute. reflexivity. Qed.

(** C10: a three-digit string "hmm" with [h] in 3-9 and [mm] in 00-59 is
    accepted: the three formats with a colon fail on it, "%H%M" reads it
    as hour [h], minute [mm], and that is what [parse_target_time]
    returns. *)
Theorem C10_three_digits_accepted (h m : Z)
        (Hh : 3 <= h <= 9) (Hm : 0 <= m <= 59) :
  let s := String (PyStr.digit_char h) (pad2 m) in
  parse_target_time s = inr (mktime h m 0 0) /\
  (exists dt, Strptime.strptime s "%H%M" = inr dt /\ time_of dt = mktime h m 0 0) /\
  Forall (fun f => exists e, Strptime.strptime s f = inl e)
         ["%I:%M %p"; "%I:%M%p"; "%H:%M"].
Proof.
  assert (Hok : three_digit_ok h m = true).
  { apply (over_sound _ 3 0 7 60 three_digit_table); simpl; lia. }
  unfold three_digit_ok, three_digit in Hok. cbv zeta in *.
  rewrite !andb_true_iff in Hok. destruct Hok as ((Hp & Hs) & Hf).
  split; [apply parses_to_eq, Hp|]. split; [apply strptime_gives_eq, Hs|].
  rewrite forallb_forall in Hf. apply Forall_forall.
  intros f Hin. apply fails_on_eq, Hf, Hin.
Qed.

Lemma C10_three_digits_accepted_witness :
  parse_target_time "700" = inr (mktime 7 0 0 0).
Proof.
  apply (C10_three_digits_accepted 7 0); lia.
Defined.

(** ** The printed alarm time read back *)

Lemma stamp_table :
  over (upto 0 24) (upto 0 60) stamp_ok = true.
Proof. vm_compute. reflexivity. Qed.

Lemma digit_char_not_blank (n : Z) :
  Ascii.eqb (PyStr.digit_char (n mod 10)) " " = false.
Proof.
  pose proof (Z.mod_pos_bound n 10 ltac:(lia)) as Hb.
  generalize dependent (n mod 10). intros d Hd.
  assert (Hcases : d = 0 \/ d = 1 \/ d = 2 \/ d = 3 \/ d = 4 \/
                   d = 5 \/ d = 6 \/ d = 7 \/ d = 8 \/ d = 9) by lia.
  repeat (destruct Hcases as [-> | Hcases]; [reflexivity|]). subst. reflexivity.
Qed.

Lemma after_blank_digit (n : Z) (s : string) :
  after_blank (String (PyStr.digit_char (n mod 10)) s) = after_blank s.
Proof. simpl. rewrite digit_char_not_blank. reflexivity. Qed.

Lemma after_blank_pad2 (n : Z) (s : string) :
  after_blank (pad2 n ++ s) = after_blank s.
Proof. unfold pad2. cbn [append]. rewrite !after_blank_digit. reflexivity. Qed.

Lemma after_blank_year (y : Z) (s : string) :
  after_blank (year_text y ++ s) = after_blank s.
Proof.
  unfold year_text, pad4.
  destruct (y <? 10); [|destruct (y <? 100); [|destruct (y <? 1000)]];
    cbn [append]; rewrite ?after_blank_digit; try apply after_blank_pad2.
  reflexivity.
Qed.

Lemma hour_minute_of_stamp (dt : datetime) :
  hour_minute_of (strftime "%Y-%m-%d %H:%M:%S" dt)
  = pad2 (hour (time_of dt)) ++ ":" ++ pad2 (minute (time_of dt)).
Proof.
  unfold hour_minute_of.
  change (strftime "%Y-%m-%d %H:%M:%S" dt)
    with (year_text (year (date_of dt))
          ++ String "-" (pad2 (month (date_of dt))
          ++ String "-" (pad2 (day (date_of dt))
          ++ String " " (pad2 (hour (time_of dt))
          ++ String ":" (pad2 (minute (time_of dt))
          ++ String ":" (pad2 (second (time_of dt)) ++ EmptyString)))))).
  rewrite after_blank_year.
  change (after_blank (String "-" ?x)) with (after_blank x).
  rewrite after_blank_pad2.
  change (after_blank (String "-" ?x)) with (after_blank x).
  rewrite after_blank_pad2.
  reflexivity.
Qed.

Lemma stamp_parses_back (t : time) :
  TimeOfDay t ->
  parse_target_time (pad2 (hour t) ++ ":" ++ pad2 (minute t)) = inr t.
Proof.
  destruct t as [h m s us]. unfold TimeOfDay. simpl.
  intros (Hh & Hm & -> & ->).
  apply parses_to_eq.
  apply (over_sound stamp_ok 0 0 24 60 stamp_table); simpl; lia.
Qed.

(** C9: for every target TimeOfDay and instant [now], the instant that
    [confirm_target_today] returns, printed as "YYYY-MM-DD HH:MM:SS",
    has an hour/minute field that parses back to the target, whether or
    not a day was added; and an instant is returned on every date but
    9999-12-31. *)
Theorem C9_round_trip (target : time) (now : datetime)
        (Htarget : TimeOfDay target) :
  (forall r,
      confirm_target_today now target = inr r ->
      parse_target_time (hour_minute_of (strftime "%Y-%m-%d %H:%M:%S" r))
        = inr target) /\
  (valid_date (date_of now) -> date_of now <> last_day ->
   exists r, confirm_target_today now target = inr r).
Proof.
  split.
  - intros r Hr. rewrite hour_minute_of_stamp.
    rewrite (confirm_result_time _ _ _ Hr).
    apply stamp_parses_back, Htarget.
  - apply confirm_returns.
Qed.

Lemma C9_round_trip_witness :
  parse_target_time (hour_minute_of "2024-01-02 07:00:00") = inr (mktime 7 0 0 0) /\
  parse_target_time (hour_minute_of "2024-01-01 19:30:00") = inr (mktime 19 30 0 0) /\
  parse_target_time (hour_minute_of "999-01-02 07:00:00") = inr (mktime 7 0 0 0).
Proof.
  split; [|split].
  - apply (proj1 (C9_round_trip (mktime 7 0 0 0)
                    (mkdatetime (mkdate 2024 1 1) (mktime 8 0 0 0))
                    ltac:(unfold TimeOfDay; simpl; lia))
             (mkdatetime (mkdate 2024 1 2) (mktime 7 0 0 0))).
    reflexivity.
  - apply (proj1 (C9_round_trip (mktime 19 30 0 0)
                    (mkdatetime (mkdate 2024 1 1) (mktime 8 0 0 0))
                    ltac:(unfold TimeOfDay; simpl; lia))
             (mkdatetime (mkdate 2024 1 1) (mktime 19 30 0 0))).
    reflexivity.
  - apply (proj1 (C9_round_trip (mktime 7 0 0 0)
                    (mkdatetime (mkdate 999 1 1) (mktime 8 0 0 0))
                    ltac:(unfold TimeOfDay; simpl; lia))
             (mkdatetime (mkdate 999 1 2) (mktime 7 0 0 0))).
    reflexivity.
Defined.

(** ** main: the rejected time string *)

Lemma main_unfold (w : world) :
  main w =
    match parse_target_time (target_of w) with
    | inl e =>
        ([Print ("Error: " ++ str e);
          Print "Accepted formats: 7:00 AM, 07:00, 10:00 PM, 22:00, etc."],
         Exit 2)
    | inr target_time =>
        match confirm_target_today (start w) target_time with
        | inl e => ([], Uncaught e)
        | inr alarm_dt =>
            prepend [Print ("Alarm set for: " ++ strftime "%Y-%m-%d %H:%M:%S" alarm_dt);
                     Print ("Sound file: " ++ sound_of w)]
              (wait_loop (sys_host w) (sound_of w) alarm_dt (polls w))
        end
    end.
Proof.
  unfold main, target_of, sound_of.
  destruct (sys_argv w) as [|prog [|a [|b rest]]]; reflexivity.
Qed.

Lemma prefix_append (s t : string) : String.prefix s (s ++ t) = true.
Proof.
  induction s as [|c s IH]; simpl; [destruct t; reflexivity|].
  destruct (ascii_dec c c); [exact IH | congruence].
Qed.

Lemma contains_prefix (hay needle : string) :
  String.prefix needle hay = true -> contains hay needle = true.
Proof. intros H. destruct hay; simpl in *; rewrite H; reflexivity. Qed.

Lemma contains_append (pre s post : string) : contains (pre ++ s ++ post) s = true.
Proof.
  induction pre as [|c pre IH]; simpl.
  - apply contains_prefix, prefix_append.
  - rewrite IH. apply orb_true_r.
Qed.

Lemma contains_quoted (s : string) :
  contains ("Unrecognized time format: '" ++ s ++ "'") s = true.
Proof. apply contains_append. Qed.

(** C6, as the spec states it, fails where the input has surrounding
    whitespace: the error carries the stripped string, and the original
    string does not occur in it. *)
Lemma C6_error_carries_stripped_input :
  parse_target_time " noon "
    = inl (ValueError "Unrecognized time format: 'noon'" (Some Strptime.NoMatch)) /\
  contains "Unrecognized time format: 'noon'" " noon " = false /\
  contains "Unrecognized time format: 'noon'" "noon" = true.
Proof. repeat split. Qed.

(** C6 (amended): when the target time string fails to parse, the
    [ValueError] raised carries the input string with its leading and
    trailing whitespace stripped; the process prints the error and the
    format-help line and nothing else, and exits with code 2 whatever the
    clock and the signals would have been: the wait loop is not
    entered. *)
Theorem C6_invalid_format_exits_2 (w : world) (e : exn)
        (Hfail : parse_target_time (target_of w) = inl e) :
  let shown := PyStr.strip (target_of w) in
  (exists cause, e = ValueError ("Unrecognized time format: '" ++ shown ++ "'") cause) /\
  contains (str e) shown = true /\
  (forall ps,
      main (mkworld (sys_argv w) (sys_host w) (start w) ps)
      = ([Print ("Error: Unrecognized time format: '" ++ shown ++ "'");
          Print "Accepted formats: 7:00 AM, 07:00, 10:00 PM, 22:00, etc."],
         Exit 2)) /\
  exit_status (snd (main w)) = Some 2.
Proof.
  cbv zeta.
  destruct (parse_error_inv _ _ Hfail) as (_ & cause & ->).
  split; [eauto|]. split; [apply contains_quoted|]. split.
  - intros ps. rewrite main_unfold.
    change (target_of {| sys_argv := sys_argv w; sys_host := sys_host w;
                         start := start w; polls := ps |}) with (target_of w).
    rewrite Hfail. reflexivity.
  - rewrite main_unfold, Hfail. reflexivity.
Qed.

Lemma C6_invalid_format_exits_2_witness :
  main (mkworld ["alarmclock.py"; " noon "] (mkhost "linux" (fun p => p) (fun _ => true) (fun _ => Completed))
                (mkdatetime (mkdate 2024 1 1) (mktime 6 0 0 0))
                [Clock (mkdatetime (mkdate 2024 1 1) (mktime 7 0 0 0)) Slept])
  = ([Print "Error: Unrecognized time format: 'noon'";
      Print "Accepted formats: 7:00 AM, 07:00, 10:00 PM, 22:00, etc."],
     Exit 2).
Proof.
  pose (w := mkworld ["alarmclock.py"; " noon "]
               (mkhost "linux" (fun p => p) (fun _ => true) (fun _ => Completed))
               (mkdatetime (mkdate 2024 1 1) (mktime 6 0 0 0))
               [Clock (mkdatetime (mkdate 2024 1 1) (mktime 7 0 0 0)) Slept]).
  apply (proj1 (proj2 (proj2
           (C6_invalid_format_exits_2 w
              (ValueError "Unrecognized time format: 'noon'" (Some Strptime.NoMatch))
              eq_refl)))
           (polls w)).
Defined.

(** ** The wait loop *)

Lemma lt_geb_false (t alarm_dt : datetime) : lt t alarm_dt -> geb t alarm_dt = false.
Proof.
  unfold lt, geb, leb. rewrite (cmp_opp t alarm_dt). intros ->. reflexivity.
Qed.

Lemma le_geb_true (t alarm_dt : datetime) : le alarm_dt t -> geb t alarm_dt = true.
Proof. unfold geb. apply leb_true_le. Qed.

Lemma prepend_app (a b : list event) (r : list event * outcome) :
  prepend a (prepend b r) = prepend (a ++ b)%list r.
Proof. unfold prepend. simpl. rewrite app_assoc. reflexivity. Qed.

Lemma prepend_fst (a : list event) (r : list event * outcome) :
  fst (prepend a r) = (a ++ fst r)%list.
Proof. reflexivity. Qed.

Lemma prepend_snd (a : list event) (r : list event * outcome) :
  snd (prepend a r) = snd r.
Proof. reflexivity. Qed.

(** While the clock reads instants before the alarm and no signal comes,
    the loop only sleeps. *)
Lemma wait_loop_quiet (h : host) (soundfile : string) (alarm_dt : datetime)
      (before : list datetime) (rest : list poll) :
  Forall (fun t => lt t alarm_dt) before ->
  wait_loop h soundfile alarm_dt (quiet before ++ rest)
  = prepend (repeat (Sleep INTERVAL_SECONDS) (List.length before))
      (wait_loop h soundfile alarm_dt rest).
Proof.
  induction 1 as [|t before Ht _ IH]; simpl.
  - destruct (wait_loop h soundfile alarm_dt rest). reflexivity.
  - rewrite (lt_geb_false _ _ Ht), IH, prepend_app. reflexivity.
Qed.

Lemma wait_loop_interrupt (h : host) (soundfile : string) (alarm_dt : datetime)
      (p : poll) (rest : list poll) :
  interrupts alarm_dt p ->
  wait_loop h soundfile alarm_dt (p :: rest)
  = prepend (repeat (Sleep INTERVAL_SECONDS) (naps p)) cancelled.
Proof.
  intros [-> | (t & -> & Ht)]; simpl.
  - reflexivity.
  - rewrite (lt_geb_false _ _ Ht). reflexivity.
Qed.

Lemma Forall_silent_sleeps (n : nat) : Forall silent (repeat (Sleep INTERVAL_SECONDS) n).
Proof. induction n; simpl; constructor; simpl; auto. Qed.

(** C7: if the interrupt arrives in the wait loop before the alarm is due
    (every earlier clock reading is before the alarm), the sound is never
    triggered and no playback mechanism is tried; the process prints the
    cancellation line after the sleeps it made and exits with code 0. *)
Theorem C7_cancelled_before_alarm (w : world) (target : time) (alarm_dt : datetime)
        (before : list datetime) (p : poll) (rest : list poll)
        (Hparse : parse_target_time (target_of w) = inr target)
        (Halarm : confirm_target_today (start w) target = inr alarm_dt)
        (Hpolls : polls w = (quiet before ++ p :: rest)%list)
        (Hbefore : Forall (fun t => lt t alarm_dt) before)
        (Hsignal : interrupts alarm_dt p) :
  main w
  = ([Print ("Alarm set for: " ++ stamp alarm_dt);
      Print ("Sound file: " ++ sound_of w)]
     ++ repeat (Sleep INTERVAL_SECONDS) (List.length before + naps p)
     ++ [Print cancel_line],
     Exit 0)%list /\
  Forall silent (fst (main w)) /\
  exit_status (snd (main w)) = Some 0.
Proof.
  assert (Hmain : main w
    = ([Print ("Alarm set for: " ++ stamp alarm_dt);
        Print ("Sound file: " ++ sound_of w)]
       ++ repeat (Sleep INTERVAL_SECONDS) (List.length before + naps p)
       ++ [Print cancel_line],
       Exit 0)%list).
  { rewrite main_unfold, Hparse, Halarm, Hpolls.
    rewrite (wait_loop_quiet _ _ _ _ _ Hbefore), (wait_loop_interrupt _ _ _ _ _ Hsignal).
    rewrite repeat_app. unfold prepend, cancelled. simpl.
    rewrite <- app_assoc. reflexivity. }
  rewrite Hmain. split; [reflexivity|]. split; [|reflexivity].
  simpl. repeat constructor.
  apply Forall_app. split; [apply Forall_silent_sleeps|]. repeat constructor.
Qed.

Lemma C7_cancelled_before_alarm_witness :
  main (mkworld ["alarmclock.py"; "7:00"; "alarm.aif"]
          (mkhost "linux" (fun path => path) (fun _ => true) (fun _ => Completed))
          (mkdatetime (mkdate 2024 1 1) (mktime 6 59 57 0))
          [Clock (mkdatetime (mkdate 2024 1 1) (mktime 6 59 58 0)) Slept;
           Clock (mkdatetime (mkdate 2024 1 1) (mktime 6 59 59 0)) Woken;
           Clock (mkdatetime (mkdate 2024 1 1) (mktime 7 0 0 0)) Slept])
  = ([Print "Alarm set for: 2024-01-01 07:00:00";
      Print "Sound file: alarm.aif";
      Sleep 1; Sleep 1;
      Print cancel_line],
     Exit 0).
Proof.
  apply (C7_cancelled_before_alarm
           (mkworld ["alarmclock.py"; "7:00"; "alarm.aif"]
              (mkhost "linux" (fun path => path) (fun _ => true) (fun _ => Completed))
              (mkdatetime (mkdate 2024 1 1) (mktime 6 59 57 0))
              [Clock (mkdatetime (mkdate 2024 1 1) (mktime 6 59 58 0)) Slept;
               Clock (mkdatetime (mkdate 2024 1 1) (mktime 6 59 59 0)) Woken;
               Clock (mkdatetime (mkdate 2024 1 1) (mktime 7 0 0 0)) Slept])
           (mktime 7 0 0 0)
           (mkdatetime (mkdate 2024 1 1) (mktime 7 0 0 0))
           [mkdatetime (mkdate 2024 1 1) (mktime 6 59 58 0)]
           (Clock (mkdatetime (mkdate 2024 1 1) (mktime 6 59 59 0)) Woken)
           [Clock (mkdatetime (mkdate 2024 1 1) (mktime 7 0 0 0)) Slept]).
  - reflexivity.
  - reflexivity.
  - reflexivity.
  - repeat constructor.
  - right. eexists. split; reflexivity.
Defined.

(** ** play_sound *)

Lemma seq_skip_l (r : run) : skip >> r = r.
Proof. destruct r. reflexivity. Qed.

Lemma seq_skip_r (r : run) : r >> skip = r.
Proof. destruct r as [t [| |e]]; simpl; rewrite ?app_nil_r; reflexivity. Qed.

Lemma seq_assoc (a b c : run) : (a >> b) >> c = a >> (b >> c).
Proof.
  destruct a as [ta [| |ea]]; try reflexivity.
  destruct b as [tb [| |eb]]; simpl; rewrite ?app_assoc; reflexivity.
Qed.

Lemma for_each_app (h : host) (l1 l2 : list call) :
  for_each h (l1 ++ l2) = for_each h l1 >> for_each h l2.
Proof.
  induction l1 as [|c l1 IH].
  - symmetry. apply seq_skip_l.
  - cbn [for_each app]. rewrite IH, seq_assoc. reflexivity.
Qed.

Lemma for_each_when (h : host) (cond : bool) (l : list call) :
  for_each h (if cond then l else []) = when cond (for_each h l).
Proof. destruct cond; reflexivity. Qed.

Lemma for_each_one (h : host) (c : call) : for_each h [c] = attempt h c.
Proof. apply seq_skip_r. Qed.

(** Once the file is there, [play_sound] is the loop over the platform's
    mechanisms followed by the final [raise]. *)
Lemma play_sound_unfold (h : host) (soundfile : string) :
  isfile h (expanduser h soundfile) = true ->
  play_sound h soundfile
  = for_each h (mechanisms (platform h) (expanduser h soundfile)) >> ([], Raise no_method).
Proof.
  intros Hfile. unfold play_sound, mechanisms. rewrite Hfile. simpl negb. cbv iota.
  rewrite !for_each_app, !for_each_when, !for_each_one, <- !seq_assoc.
  reflexivity.
Qed.

Lemma for_each_all_raised (h : host) (l : list call) :
  Forall (raised h) l -> for_each h l = (l, Fall).
Proof.
  induction 1 as [|c l Hc _ IH]; [reflexivity|].
  simpl. unfold attempt. rewrite Hc, IH. reflexivity.
Qed.

Lemma for_each_first_success (h : host) (pre : list call) (c : call) (post : list call) :
  Forall (raised h) pre -> perform h c = Completed ->
  for_each h (pre ++ c :: post) = ((pre ++ [c])%list, Return_).
Proof.
  intros Hpre Hc. rewrite for_each_app, (for_each_all_raised _ _ Hpre).
  simpl. unfold attempt. rewrite Hc. reflexivity.
Qed.

Lemma play_sound_missing_file (h : host) (soundfile : string) :
  isfile h (expanduser h soundfile) = false ->
  play_sound h soundfile
  = ([], Raise (FileNotFoundError ("Sound file not found: " ++ expanduser h soundfile))).
Proof. intros Hfile. unfold play_sound. rewrite Hfile. reflexivity. Qed.

(** With the file there, [play_sound] never ends in [FileNotFoundError]:
    what a mechanism raises is swallowed or is an interrupt. *)
Lemma for_each_flow (h : host) (l : list call) :
  snd (for_each h l) = Return_ \/ snd (for_each h l) = Fall \/
  snd (for_each h l) = Raise KeyboardInterrupt.
Proof.
  induction l as [|c l IH]; simpl; [auto|].
  unfold attempt. destruct (perform h c); simpl; auto.
Qed.

Lemma play_sound_present_file (h : host) (soundfile : string) :
  isfile h (expanduser h soundfile) = true ->
  snd (play_sound h soundfile) = Return_ \/
  snd (play_sound h soundfile) = Raise no_method \/
  snd (play_sound h soundfile) = Raise KeyboardInterrupt.
Proof.
  intros Hfile. rewrite (play_sound_unfold _ _ Hfile).
  destruct (for_each h (mechanisms (platform h) (expanduser h soundfile)))
    as [t fl] eqn:E.
  pose proof (for_each_flow h (mechanisms (platform h) (expanduser h soundfile))) as Hfl.
  rewrite E in Hfl. simpl in Hfl.
  destruct Hfl as [-> | [-> | ->]]; simpl; auto.
Qed.

Lemma wait_loop_due (h : host) (soundfile : string) (alarm_dt t : datetime)
      (sleep : nap) (rest : list poll) :
  le alarm_dt t ->
  wait_loop h soundfile alarm_dt (Clock t sleep :: rest)
  = prepend (Print "Alarm time reached. Playing sound..."
               :: Trigger soundfile :: map Try (fst (play_sound h soundfile)))
      match snd (play_sound h soundfile) with
      | Raise KeyboardInterrupt => cancelled
      | Raise e => ([Print ("Failed to play sound: " ++ str e)], Exit 3)
      | Return_ | Fall => ([Print "Done."], Finished)
      end.
Proof.
  intros Hle. simpl. rewrite (le_geb_true _ _ Hle).
  destruct (play_sound h soundfile). reflexivity.
Qed.

(** When the clock reaches the alarm and [play_sound] raises an
    [Exception], [main] prints the reason and exits with code 3. *)
Lemma wait_loop_playback_failure (h : host) (soundfile : string) (alarm_dt t : datetime)
      (sleep : nap) (rest : list poll) (calls : list call) (e : exn) :
  le alarm_dt t ->
  play_sound h soundfile = (calls, Raise e) ->
  e <> KeyboardInterrupt ->
  wait_loop h soundfile alarm_dt (Clock t sleep :: rest)
  = ((Print "Alarm time reached. Playing sound..." :: Trigger soundfile :: map Try calls)
     ++ [Print ("Failed to play sound: " ++ str e)],
     Exit 3)%list.
Proof.
  intros Hle Hplay Hne. simpl. rewrite (le_geb_true _ _ Hle), Hplay.
  destruct e; try reflexivity. congruence.
Qed.

(** C8: [play_sound] raises [FileNotFoundError] exactly when the expanded
    path is not an existing file, and then no playback mechanism has been
    attempted; otherwise it attempts the mechanisms of the platform in
    their fixed order, returns at the first that completes, and raises
    the "no available method" [RuntimeError] when each of them raised; in
    both failure cases [main], once the alarm is due, prints "Failed to
    play sound: " followed by the reason (that the file was not found,
    with its path, or that no method is available) and exits with
    code 3. *)
Theorem C8_play_sound_failures (h : host) (soundfile : string) :
  let path := expanduser h soundfile in
  ((exists msg, snd (play_sound h soundfile) = Raise (FileNotFoundError msg))
   <-> isfile h path = false) /\
  (isfile h path = false ->
   play_sound h soundfile
   = ([], Raise (FileNotFoundError ("Sound file not found: " ++ path)))) /\
  (isfile h path = true ->
   forall pre c post,
     mechanisms (platform h) path = (pre ++ c :: post)%list ->
     Forall (raised h) pre -> perform h c = Completed ->
     play_sound h soundfile = ((pre ++ [c])%list, Return_)) /\
  (isfile h path = true ->
   Forall (raised h) (mechanisms (platform h) path) ->
   play_sound h soundfile = (mechanisms (platform h) path, Raise no_method)) /\
  (forall w target alarm_dt before t sleep rest,
     sys_host w = h -> sound_of w = soundfile ->
     parse_target_time (target_of w) = inr target ->
     confirm_target_today (start w) target = inr alarm_dt ->
     polls w = (quiet before ++ Clock t sleep :: rest)%list ->
     Forall (fun t' => lt t' alarm_dt) before ->
     le alarm_dt t ->
     (isfile h path = false ->
      main w
      = ([Print ("Alarm set for: " ++ stamp alarm_dt);
          Print ("Sound file: " ++ soundfile)]
         ++ repeat (Sleep INTERVAL_SECONDS) (List.length before)
         ++ [Print "Alarm time reached. Playing sound...";
             Trigger soundfile;
             Print ("Failed to play sound: Sound file not found: " ++ path)],
         Exit 3)%list) /\
     (isfile h path = true ->
      Forall (raised h) (mechanisms (platform h) path) ->
      main w
      = ([Print ("Alarm set for: " ++ stamp alarm_dt);
          Print ("Sound file: " ++ soundfile)]
         ++ repeat (Sleep INTERVAL_SECONDS) (List.length before)
         ++ [Print "Alarm time reached. Playing sound..."; Trigger soundfile]
         ++ map Try (mechanisms (platform h) path)
         ++ [Print "Failed to play sound: No available method to play sound on this system. Install 'playsound' or ensure a command-line player is available."],
         Exit 3)%list)).
Proof.
  cbv zeta.
  assert (Hmissing : isfile h (expanduser h soundfile) = false ->
            play_sound h soundfile
            = ([], Raise (FileNotFoundError
                            ("Sound file not found: " ++ expanduser h soundfile))))
    by apply play_sound_missing_file.
  assert (Hnone : isfile h (expanduser h soundfile) = true ->
            Forall (raised h) (mechanisms (platform h) (expanduser h soundfile)) ->
            play_sound h soundfile
            = (mechanisms (platform h) (expanduser h soundfile), Raise no_method)).
  { intros Hfile Hall.
    rewrite (play_sound_unfold _ _ Hfile), (for_each_all_raised _ _ Hall).
    simpl. rewrite app_nil_r. reflexivity. }
  split; [|split; [|split; [|split]]].
  - split.
    + intros (msg & Hmsg).
      destruct (isfile h (expanduser h soundfile)) eqn:Hfile; [|reflexivity].
      destruct (play_sound_present_file _ _ Hfile) as [H | [H | H]];
        rewrite H in Hmsg; discriminate.
    + intros Hfile. rewrite (Hmissing Hfile). simpl. eauto.
  - exact Hmissing.
  - intros Hfile pre c post Hmech Hpre Hc.
    rewrite (play_sound_unfold _ _ Hfile), Hmech.
    rewrite (for_each_first_success _ _ _ _ Hpre Hc). reflexivity.
  - exact Hnone.
  - intros w target alarm_dt before t sleep rest Hh Hs Hparse Halarm Hpolls Hbefore Hle.
    split.
    + intros Hfile. specialize (Hmissing Hfile).
      rewrite main_unfold, Hparse, Halarm, Hpolls, Hh, Hs.
      rewrite (wait_loop_quiet _ _ _ _ _ Hbefore), (wait_loop_due _ _ _ _ _ _ Hle), Hmissing.
      reflexivity.
    + intros Hfile Hall. specialize (Hnone Hfile Hall).
      rewrite main_unfold, Hparse, Halarm, Hpolls, Hh, Hs.
      rewrite (wait_loop_quiet _ _ _ _ _ Hbefore), (wait_loop_due _ _ _ _ _ _ Hle), Hnone.
      reflexivity.
Qed.

Lemma C8_play_sound_failures_witness :
  let linux := mkhost "linux" (fun path => path) (fun path => String.eqb path "alarm.aif")
                 (fun c => match c with
                           | Subprocess ("aplay" :: _) => Completed
                           | _ => Raised
                           end) in
  let silent_linux := mkhost "linux" (fun path => path) (fun _ => true) (fun _ => Raised) in
  let polls := [Clock (mkdatetime (mkdate 2024 1 1) (mktime 6 59 59 0)) Slept;
                Clock (mkdatetime (mkdate 2024 1 1) (mktime 7 0 0 0)) Slept] in
  play_sound linux "missing.wav"
  = ([], Raise (FileNotFoundError "Sound file not found: missing.wav")) /\
  play_sound linux "alarm.aif"
  = ([Playsound "alarm.aif"; Subprocess ["paplay"; "alarm.aif"];
      Subprocess ["aplay"; "alarm.aif"]], Return_) /\
  main (mkworld ["alarmclock.py"; "7:00"; "missing.wav"] linux
          (mkdatetime (mkdate 2024 1 1) (mktime 6 59 58 0)) polls)
  = ([Print "Alarm set for: 2024-01-01 07:00:00";
      Print "Sound file: missing.wav";
      Sleep 1;
      Print "Alarm time reached. Playing sound...";
      Trigger "missing.wav";
      Print "Failed to play sound: Sound file not found: missing.wav"],
     Exit 3) /\
  main (mkworld ["alarmclock.py"; "7:00"] silent_linux
          (mkdatetime (mkdate 2024 1 1) (mktime 6 59 58 0)) polls)
  = ([Print "Alarm set for: 2024-01-01 07:00:00";
      Print "Sound file: alarm.aif";
      Sleep 1;
      Print "Alarm time reached. Playing sound...";
      Trigger "alarm.aif";
      Try (Playsound "alarm.aif");
      Try (Subprocess ["paplay"; "alarm.aif"]);
      Try (Subprocess ["aplay"; "alarm.aif"]);
      Try (Subprocess ["ffplay"; "-nodisp"; "-autoexit"; "alarm.aif"]);
      Print "Failed to play sound: No available method to play sound on this system. Install 'playsound' or ensure a command-line player is available."],
     Exit 3).
Proof.
  intros linux silent_linux polls. split; [|split; [|split]].
  - apply (proj1 (proj2 (C8_play_sound_failures linux "missing.wav"))). reflexivity.
  - apply (proj1 (proj2 (proj2 (C8_play_sound_failures linux "alarm.aif")))
             eq_refl
             [Playsound "alarm.aif"; Subprocess ["paplay"; "alarm.aif"]]
             (Subprocess ["aplay"; "alarm.aif"])
             [Subprocess ["ffplay"; "-nodisp"; "-autoexit"; "alarm.aif"]]).
    + reflexivity.
    + repeat constructor.
    + reflexivity.
  - apply (proj1 (proj2 (proj2 (proj2 (proj2 (C8_play_sound_failures linux "missing.wav"))))
                    (mkworld ["alarmclock.py"; "7:00"; "missing.wav"] linux
                       (mkdatetime (mkdate 2024 1 1) (mktime 6 59 58 0)) polls)
                    (mktime 7 0 0 0)
                    (mkdatetime (mkdate 2024 1 1) (mktime 7 0 0 0))
                    [mkdatetime (mkdate 2024 1 1) (mktime 6 59 59 0)]
                    (mkdatetime (mkdate 2024 1 1) (mktime 7 0 0 0)) Slept []
                    eq_refl eq_refl eq_refl eq_refl eq_refl
                    ltac:(repeat constructor)
                    ltac:(unfold le; vm_compute; discriminate))).
    reflexivity.
  - apply (proj2 (proj2 (proj2 (proj2 (proj2 (C8_play_sound_failures silent_linux "alarm.aif"))))
                    (mkworld ["alarmclock.py"; "7:00"] silent_linux
                       (mkdatetime (mkdate 2024 1 1) (mktime 6 59 58 0)) polls)
                    (mktime 7 0 0 0)
                    (mkdatetime (mkdate 2024 1 1) (mktime 7 0 0 0))
                    [mkdatetime (mkdate 2024 1 1) (mktime 6 59 59 0)]
                    (mkdatetime (mkdate 2024 1 1) (mktime 7 0 0 0)) Slept []
                    eq_refl eq_refl eq_refl eq_refl eq_refl
                    ltac:(repeat constructor)
                    ltac:(unfold le; vm_compute; discriminate))).
    + reflexivity.
    + repeat constructor.
Defined.

(** * Further properties of the code *)

Import Laws.

(** ** The matcher finds only matches *)

Lemma plus_sound {A : Type} (cs : Re.cset) (s : string) :
  forall (k : string -> option A) (x : A) (g : Re.groups),
    Re.plus cs s k = Some x ->
    exists s', Matches (Re.Plus cs) s s' g g /\ k s' = Some x.
Proof.
  induction s as [|c s IH]; intros k x g H; simpl in H; [discriminate|].
  destruct (Re.in_cset cs c) eqn:Hc; [|discriminate].
  unfold Re.orelse in H.
  destruct (Re.plus cs s k) as [y|] eqn:Hp.
  - injection H as ->. destruct (IH k x g Hp) as (s' & Hm & Hk).
    exists s'. split; [apply M_PlusMore; assumption | exact Hk].
  - exists s. split; [apply M_PlusOne; assumption | exact H].
Qed.

Lemma rmatch_sound {A : Type} (r : Re.regex) :
  forall (s : string) (g : Re.groups) (k : string -> Re.groups -> option A) (x : A),
    Re.rmatch r s g k = Some x ->
    exists s' g', Matches r s s' g g' /\ k s' g' = Some x.
Proof.
  induction r as [|c|cs|r1 IH1 r2 IH2|r1 IH1 r2 IH2|cs|name r IH];
    intros s g k x H; simpl in H.
  - exists s, g. split; [constructor | exact H].
  - destruct s as [|d s]; [discriminate|].
    destruct (Re.lit_eq c d) eqn:E; [|discriminate].
    exists s, g. split; [constructor; exact E | exact H].
  - destruct s as [|d s]; [discriminate|].
    destruct (Re.in_cset cs d) eqn:E; [|discriminate].
    exists s, g. split; [constructor; exact E | exact H].
  - destruct (IH1 _ _ _ _ H) as (s1 & g1 & Hm1 & H1).
    destruct (IH2 _ _ _ _ H1) as (s2 & g2 & Hm2 & H2).
    exists s2, g2. split; [econstructor; eassumption | exact H2].
  - unfold Re.orelse in H.
    destruct (Re.rmatch r1 s g k) as [y|] eqn:E1.
    + injection H as ->. destruct (IH1 _ _ _ _ E1) as (s' & g' & Hm & Hk).
      exists s', g'. split; [apply M_AltL; exact Hm | exact Hk].
    + destruct (IH2 _ _ _ _ H) as (s' & g' & Hm & Hk).
      exists s', g'. split; [apply M_AltR; exact Hm | exact Hk].
  - destruct (plus_sound cs s _ x g H) as (s' & Hm & Hk).
    exists s', g. split; assumption.
  - destruct (IH _ _ _ _ H) as (s' & g' & Hm & Hk).
    eexists s', _. split; [apply M_Group; exact Hm | exact Hk].
Qed.

Lemma match_sound (r : Re.regex) (s rest : string) (g : Re.groups) :
  Re.match_ r s = Some (rest, g) ->
  exists g', Matches r s rest [] g' /\ g = rev g'.
Proof.
  unfold Re.match_. intros H.
  destruct (rmatch_sound r s [] _ _ H) as (s' & g' & Hm & Hk).
  injection Hk as <- <-. eauto.
Qed.

Lemma Matches_plus_groups (cs : Re.cset) (s s' : string) (g g' : Re.groups) :
  Matches (Re.Plus cs) s s' g g' -> g' = g.
Proof.
  intros H. remember (Re.Plus cs) as r eqn:Hr.
  induction H; try discriminate; reflexivity.
Qed.

(** ** What the captured groups can hold *)

Lemma in_range_bounds (lo hi c : ascii) :
  Re.in_cset (Re.Range lo hi) c = true -> PyStr.ord lo <= PyStr.ord c <= PyStr.ord hi.
Proof.
  simpl. unfold PyStr.between. rewrite andb_true_iff, !Z.leb_le. auto.
Qed.

Lemma in_digit_bounds (c : ascii) :
  Re.in_cset Re.Digit c = true -> 48 <= PyStr.ord c <= 57.
Proof.
  simpl. unfold PyStr.isdigit, PyStr.between. rewrite andb_true_iff, !Z.leb_le. auto.
Qed.

Lemma lit_eq_lower (c d : ascii) :
  Re.lit_eq c d = true -> PyStr.lower_char d = PyStr.lower_char c.
Proof. unfold Re.lit_eq. intros H. apply Ascii.eqb_eq in H. congruence. Qed.

(** Under IGNORECASE a digit of the pattern still matches itself only. *)
Lemma lit_eq_digit (c d : ascii) :
  48 <= PyStr.ord c <= 57 -> Re.lit_eq c d = true -> PyStr.ord d = PyStr.ord c.
Proof.
  intros Hc H. apply lit_eq_lower in H. revert H.
  assert (Hlc : PyStr.lower_char c = c).
  { unfold PyStr.lower_char, PyStr.between.
    destruct (65 <=? PyStr.ord c) eqn:E1; simpl.
    - apply Z.leb_le in E1. lia.
    - destruct (192 <=? PyStr.ord c) eqn:E2; simpl; [apply Z.leb_le in E2; lia | reflexivity]. }
  rewrite Hlc. unfold PyStr.lower_char.
  destruct (PyStr.between 65 90 d || PyStr.between 192 222 d && negb (PyStr.ord d =? 215)) eqn:E.
  - intros <-. exfalso. revert Hc E. clear.
    destruct d as [[] [] [] [] [] [] [] []]; vm_compute; intuition congruence.
  - intros ->. reflexivity.
Qed.

Lemma digit_value_of (c : ascii) :
  48 <= PyStr.ord c <= 57 -> PyStr.digit_value c = Some (PyStr.ord c - 48).
Proof.
  intros H. unfold PyStr.digit_value, PyStr.isdigit, PyStr.between.
  destruct (48 <=? PyStr.ord c) eqn:E1; [|apply Z.leb_gt in E1; lia].
  destruct (PyStr.ord c <=? 57) eqn:E2; [|apply Z.leb_gt in E2; lia].
  reflexivity.
Qed.

Lemma int_one_digit (c : ascii) :
  48 <= PyStr.ord c <= 57 ->
  PyStr.int (String c EmptyString) = Some (PyStr.ord c - 48).
Proof.
  intros H. unfold PyStr.int, PyStr.int_from. rewrite (digit_value_of _ H).
  f_equal; lia.
Qed.

Lemma int_two_digits (c d : ascii) :
  48 <= PyStr.ord c <= 57 -> 48 <= PyStr.ord d <= 57 ->
  PyStr.int (String c (String d EmptyString))
  = Some (10 * (PyStr.ord c - 48) + (PyStr.ord d - 48)).
Proof.
  intros Hc Hd. unfold PyStr.int, PyStr.int_from.
  rewrite (digit_value_of _ Hc), (digit_value_of _ Hd). f_equal; lia.
Qed.

Lemma take_one (c : ascii) (s : string) :
  PyStr.take (String.length (String c s) - String.length s) (String c s)
  = String c EmptyString.
Proof.
  simpl String.length. replace (S (String.length s) - String.length s)%nat with 1%nat by lia.
  reflexivity.
Qed.

Lemma take_two (c d : ascii) (s : string) :
  PyStr.take (String.length (String c (String d s)) - String.length s)
             (String c (String d s))
  = String c (String d EmptyString).
Proof.
  simpl String.length.
  replace (S (S (String.length s)) - String.length s)%nat with 2%nat by lia.
  reflexivity.
Qed.

(** Takes a match of a compound regex apart. *)
Ltac inv_match :=
  repeat match goal with
         | H : Matches Re.Eps _ _ _ _ |- _ => inversion H; subst; clear H
         | H : Matches (Re.Lit _) _ _ _ _ |- _ => inversion H; subst; clear H
         | H : Matches (Re.Set_ _) _ _ _ _ |- _ => inversion H; subst; clear H
         | H : Matches (Re.Cat _ _) _ _ _ _ |- _ => inversion H; subst; clear H
         | H : Matches (Re.Alt _ _) _ _ _ _ |- _ => inversion H; subst; clear H
         | H : Matches (Re.Group _ _) _ _ _ _ |- _ => inversion H; subst; clear H
         | H : Matches (Re.Plus _) _ _ _ _ |- _ =>
             apply Matches_plus_groups in H; subst
         end.

(** Turns the tests a match passed into bounds on the code points. *)
Ltac char_bounds :=
  repeat match goal with
         | H : Re.in_cset Re.Digit _ = true |- _ => apply in_digit_bounds in H
         | H : Re.in_cset (Re.Range ?lo ?hi) _ = true |- _ =>
             apply in_range_bounds in H;
             let l := eval vm_compute in (PyStr.ord lo) in
             let u := eval vm_compute in (PyStr.ord hi) in
             change (PyStr.ord lo) with l in H; change (PyStr.ord hi) with u in H
         | H : Re.lit_eq ?c _ = true |- _ =>
             apply (lit_eq_digit c) in H; [| vm_compute; split; discriminate];
             let v := eval vm_compute in (PyStr.ord c) in
             change (PyStr.ord c) with v in H
         end.

Lemma matches_H (r : Re.regex) (s s' : string) (g g' : Re.groups) :
  Strptime.directive "H" = Some r -> Matches r s s' g g' ->
  exists text n, g' = ("H"%char, text) :: g /\ PyStr.int text = Some n /\ 0 <= n <= 23.
Proof.
  intros Hdir H. vm_compute in Hdir. injection Hdir as <-.
  inv_match; rewrite ?take_one, ?take_two; char_bounds;
    eexists _, _; (split; [reflexivity|]);
    (split; [first [apply int_two_digits | apply int_one_digit]; lia | lia]).
Qed.

Lemma matches_I (r : Re.regex) (s s' : string) (g g' : Re.groups) :
  Strptime.directive "I" = Some r -> Matches r s s' g g' ->
  exists text n, g' = ("I"%char, text) :: g /\ PyStr.int text = Some n /\ 1 <= n <= 12.
Proof.
  intros Hdir H. vm_compute in Hdir. injection Hdir as <-.
  inv_match; rewrite ?take_one, ?take_two; char_bounds;
    eexists _, _; (split; [reflexivity|]);
    (split; [first [apply int_two_digits | apply int_one_digit]; lia | lia]).
Qed.

Lemma matches_M (r : Re.regex) (s s' : string) (g g' : Re.groups) :
  Strptime.directive "M" = Some r -> Matches r s s' g g' ->
  exists text n, g' = ("M"%char, text) :: g /\ PyStr.int text = Some n /\ 0 <= n <= 59.
Proof.
  intros Hdir H. vm_compute in Hdir. injection Hdir as <-.
  inv_match; rewrite ?take_one, ?take_two; char_bounds;
    eexists _, _; (split; [reflexivity|]);
    (split; [first [apply int_two_digits | apply int_one_digit]; lia | lia]).
Qed.

Lemma matches_p (r : Re.regex) (s s' : string) (g g' : Re.groups) :
  Strptime.directive "p" = Some r -> Matches r s s' g g' ->
  exists text, g' = ("p"%char, text) :: g /\
               (PyStr.lower text = "am" \/ PyStr.lower text = "pm").
Proof.
  intros Hdir H. vm_compute in Hdir. injection Hdir as <-.
  inv_match; rewrite ?take_two; eexists; (split; [reflexivity|]);
    repeat match goal with
           | H : Re.lit_eq _ _ = true |- _ => apply lit_eq_lower in H
           end;
    simpl PyStr.lower;
    repeat match goal with
           | H : PyStr.lower_char _ = _ |- _ => rewrite H; clear H
           end;
    [left | right]; reflexivity.
Qed.

(** ** From the groups to the fields *)

Lemma set_field_H (g : Re.groups) (h m n : Z) (text : string) :
  PyStr.int text = Some n ->
  Strptime.set_field g (h, m) ("H"%char, text) = (n, m).
Proof. intros Hn. unfold Strptime.set_field. rewrite Hn. reflexivity. Qed.

Lemma set_field_M (g : Re.groups) (h m n : Z) (text : string) :
  PyStr.int text = Some n ->
  Strptime.set_field g (h, m) ("M"%char, text) = (h, n).
Proof. intros Hn. unfold Strptime.set_field. rewrite Hn. reflexivity. Qed.

Lemma set_field_p (g : Re.groups) (hm : Z * Z) (text : string) :
  Strptime.set_field g hm ("p"%char, text) = hm.
Proof. destruct hm. reflexivity. Qed.

Lemma set_field_I (g : Re.groups) (h m n : Z) (text marker : string) :
  PyStr.int text = Some n -> 1 <= n <= 12 ->
  Re.get "p" g = Some marker ->
  PyStr.lower marker = "am" \/ PyStr.lower marker = "pm" ->
  exists h', Strptime.set_field g (h, m) ("I"%char, text) = (h', m) /\ 0 <= h' <= 23.
Proof.
  intros Hn Hr Hg Hmk. unfold Strptime.set_field. rewrite Hn, Hg.
  destruct Hmk as [-> | ->]; simpl; destruct (n =? 12) eqn:E; simpl;
    eexists; (split; [reflexivity|]); rewrite ?Z.eqb_eq, ?Z.eqb_neq in E; lia.
Qed.

(** Keeps the part of a format's match that matters for the fields: the
    groups, in order, with what each can hold. *)
Ltac inv_format :=
  repeat match goal with
         | H : Matches Re.Eps _ _ _ _ |- _ => inversion H; subst; clear H
         | H : Matches (Re.Lit _) _ _ _ _ |- _ => inversion H; subst; clear H
         | H : Matches (Re.Cat _ _) _ _ _ _ |- _ => inversion H; subst; clear H
         | H : Matches (Re.Plus _) _ _ _ _ |- _ =>
             apply Matches_plus_groups in H; subst
         | H : Matches (Re.Group "H" _) _ _ _ _ |- _ =>
             apply (matches_H _ _ _ _ _ eq_refl) in H;
             destruct H as (? & ? & -> & ? & ?)
         | H : Matches (Re.Group "I" _) _ _ _ _ |- _ =>
             apply (matches_I _ _ _ _ _ eq_refl) in H;
             destruct H as (? & ? & -> & ? & ?)
         | H : Matches (Re.Group "M" _) _ _ _ _ |- _ =>
             apply (matches_M _ _ _ _ _ eq_refl) in H;
             destruct H as (? & ? & -> & ? & ?)
         | H : Matches (Re.Group "p" _) _ _ _ _ |- _ =>
             apply (matches_p _ _ _ _ _ eq_refl) in H;
             destruct H as (? & -> & ?)
         end.

Lemma strptime_inv (data fmt : string) (re : Re.regex) (dt : datetime) :
  Strptime.pattern fmt = Some re -> Strptime.strptime data fmt = inr dt ->
  exists g',
    Matches re data EmptyString [] g' /\
    dt = mkdatetime (mkdate 1900 1 1)
           (mktime (fst (fold_left (Strptime.set_field (rev g')) (rev g') (0, 0)))
                   (snd (fold_left (Strptime.set_field (rev g')) (rev g') (0, 0)))
                   0 0).
Proof.
  intros Hp H. unfold Strptime.strptime in H. rewrite Hp in H.
  destruct (Re.match_ re data) as [[rest g]|] eqn:Hm; [|discriminate].
  destruct rest as [|c rest]; [|discriminate].
  destruct (match_sound _ _ _ _ Hm) as (g' & Hg' & ->).
  exists g'. split; [exact Hg'|].
  destruct (fold_left (Strptime.set_field (rev g')) (rev g') (0, 0)) as [h m].
  injection H as <-. reflexivity.
Qed.

(** Applies [strptime_inv] with the regex of the format computed. *)
Ltac format_case H :=
  match type of H with
  | Strptime.strptime ?data ?fmt = inr ?dt =>
      let p := eval vm_compute in (Strptime.pattern fmt) in
      match p with
      | Some ?re =>
          let g := fresh "g" in
          let Hm := fresh "Hm" in
          destruct (strptime_inv data fmt re dt eq_refl H) as (g & Hm & ->);
          clear H; inv_format
      end
  end.

(** Evaluates the loop over the groups with what is known of them. *)
Ltac fields :=
  repeat first
         [ rewrite set_field_p
         | erewrite set_field_H by eassumption
         | erewrite set_field_M by eassumption
         | match goal with
           | Hn : PyStr.int ?t = Some ?n, Hr : 1 <= ?n <= 12,
             Hmk : PyStr.lower ?mk = _ \/ _
             |- context [Strptime.set_field ?g (?h, ?m) ("I"%char, ?t)] =>
               let h' := fresh "h" in
               let E := fresh "E" in
               let B := fresh "B" in
               destruct (set_field_I g h m n t mk Hn Hr eq_refl Hmk) as (h' & E & B);
               rewrite E; clear E
           end ].

(** Whatever one of the six formats reads is a time of day on
    1900-01-01: hour 0-23, minute 0-59, no seconds. *)
Lemma strptime_time_of_day (data fmt : string) (dt : datetime) :
  In fmt parse_formats -> Strptime.strptime data fmt = inr dt ->
  TimeOfDay (time_of dt) /\ date_of dt = mkdate 1900 1 1.
Proof.
  intros Hin H. simpl in Hin.
  repeat (destruct Hin as [<- | Hin];
          [ format_case H; cbn [rev app fold_left]; fields;
            unfold TimeOfDay; simpl; repeat split; lia | ]).
  contradiction.
Qed.

(** ** parse_target_time: what it returns, what it ignores *)

Lemma parse_time_of_day (s : string) (t : time) :
  parse_target_time s = inr t -> TimeOfDay t.
Proof.
  intros Hparse. unfold parse_target_time in Hparse.
  destruct (try_formats_found _ _ _ _ Hparse)
    as (pre & fmt & post & dt & Hfmts & _ & Hfmt & ->).
  apply (strptime_time_of_day (PyStr.strip s) fmt dt); [|exact Hfmt].
  rewrite Hfmts. apply in_or_app. right. left. reflexivity.
Qed.

(** X1: whatever [parse_target_time] returns is a time of day with hour
    0-23, minute 0-59 and neither seconds nor microseconds. *)
Theorem parse_returns_time_of_day (s : string) (t : time)
        (Hparse : parse_target_time s = inr t) :
  0 <= hour t <= 23 /\ 0 <= minute t <= 59 /\ second t = 0 /\ microsecond t = 0.
Proof. exact (parse_time_of_day s t Hparse). Qed.

Lemma parse_returns_time_of_day_witness :
  0 <= hour (mktime 19 5 0 0) <= 23 /\ 0 <= minute (mktime 19 5 0 0) <= 59 /\
  second (mktime 19 5 0 0) = 0 /\ microsecond (mktime 19 5 0 0) = 0.
Proof.
  apply (parse_returns_time_of_day "7:5 pm" (mktime 19 5 0 0)). reflexivity.
Defined.

Lemma lstrip_blank (ws s : string) :
  blank ws = true -> PyStr.lstrip (ws ++ s) = PyStr.lstrip s.
Proof.
  induction ws as [|c ws IH]; simpl; [reflexivity|].
  rewrite andb_true_iff. intros (-> & Hws). apply IH, Hws.
Qed.

Lemma lstrip_all_blank (ws : string) : blank ws = true -> PyStr.lstrip ws = EmptyString.
Proof.
  induction ws as [|c ws IH]; simpl; [reflexivity|].
  rewrite andb_true_iff. intros (-> & Hws). apply IH, Hws.
Qed.

Lemma rstrip_all_blank (ws : string) : blank ws = true -> PyStr.rstrip ws = EmptyString.
Proof.
  induction ws as [|c ws IH]; simpl; [reflexivity|].
  rewrite andb_true_iff. intros (Hc & Hws). rewrite (IH Hws), Hc. reflexivity.
Qed.

Lemma rstrip_app_blank (s ws : string) :
  blank ws = true -> PyStr.rstrip (s ++ ws) = PyStr.rstrip s.
Proof.
  intros Hws. induction s as [|c s IH]; simpl.
  - apply rstrip_all_blank, Hws.
  - rewrite IH. reflexivity.
Qed.

Lemma lstrip_app (s ws : string) :
  PyStr.lstrip (s ++ ws) = if blank s then PyStr.lstrip ws else PyStr.lstrip s ++ ws.
Proof.
  induction s as [|c s IH]; simpl; [reflexivity|].
  destruct (PyStr.isspace c); simpl; [exact IH | reflexivity].
Qed.

Lemma strip_padding (ws1 s ws2 : string) :
  blank ws1 = true -> blank ws2 = true ->
  PyStr.strip (ws1 ++ s ++ ws2) = PyStr.strip s.
Proof.
  intros H1 H2. unfold PyStr.strip.
  rewrite (lstrip_blank _ _ H1), lstrip_app.
  destruct (blank s) eqn:Hs.
  - rewrite (lstrip_all_blank _ H2), (lstrip_all_blank _ Hs). reflexivity.
  - apply rstrip_app_blank, H2.
Qed.

(** X2: whitespace before and after the time string is ignored: the
    padded string parses to the same time, or fails with the same
    error, as the string itself. *)
Theorem parse_ignores_padding (ws1 s ws2 : string)
        (Hbefore : blank ws1 = true) (Hafter : blank ws2 = true) :
  parse_target_time (ws1 ++ s ++ ws2) = parse_target_time s.
Proof.
  unfold parse_target_time. rewrite (strip_padding _ _ _ Hbefore Hafter). reflexivity.
Qed.

Lemma parse_ignores_padding_witness :
  parse_target_time "  7:00 AM " = parse_target_time "7:00 AM".
Proof.
  apply (parse_ignores_padding "  " "7:00 AM" " "); reflexivity.
Defined.

(** X3: an empty or all-whitespace time string is rejected, with the
    empty string in the message, and [main] exits with code 2. *)
Theorem blank_time_string_rejected (w : world)
        (Hblank : blank (target_of w) = true) :
  parse_target_time (target_of w)
  = inl (ValueError "Unrecognized time format: ''" (Some Strptime.NoMatch)) /\
  main w
  = ([Print "Error: Unrecognized time format: ''";
      Print "Accepted formats: 7:00 AM, 07:00, 10:00 PM, 22:00, etc."],
     Exit 2).
Proof.
  assert (Hp : parse_target_time (target_of w)
               = inl (ValueError "Unrecognized time format: ''" (Some Strptime.NoMatch))).
  { unfold parse_target_time, PyStr.strip.
    rewrite (lstrip_all_blank _ Hblank). reflexivity. }
  split; [exact Hp|]. rewrite main_unfold, Hp. reflexivity.
Qed.

Lemma blank_time_string_rejected_witness :
  main (mkworld ["alarmclock.py"; "   "]
          (mkhost "linux" (fun p => p) (fun _ => true) (fun _ => Completed))
          (mkdatetime (mkdate 2024 1 1) (mktime 6 0 0 0)) [])
  = ([Print "Error: Unrecognized time format: ''";
      Print "Accepted formats: 7:00 AM, 07:00, 10:00 PM, 22:00, etc."],
     Exit 2).
Proof.
  apply (blank_time_string_rejected
           (mkworld ["alarmclock.py"; "   "]
              (mkhost "linux" (fun p => p) (fun _ => true) (fun _ => Completed))
              (mkdatetime (mkdate 2024 1 1) (mktime 6 0 0 0)) [])).
  reflexivity.
Defined.

(** X4: the whole path from the command line to the printed alarm: if the
    time string parses to [t] and the alarm is resolved at [now], the
    hour/minute field of the printed stamp parses again to [t]. *)
Theorem printed_alarm_parses_back (s : string) (t : time) (now r : datetime)
        (Hparse : parse_target_time s = inr t)
        (Halarm : confirm_target_today now t = inr r) :
  parse_target_time (hour_minute_of (stamp r)) = parse_target_time s.
Proof.
  rewrite Hparse. unfold stamp. rewrite hour_minute_of_stamp.
  rewrite (confirm_result_time _ _ _ Halarm).
  apply stamp_parses_back, (parse_time_of_day s), Hparse.
Qed.

Lemma printed_alarm_parses_back_witness :
  parse_target_time (hour_minute_of "2024-01-02 19:05:00") = parse_target_time "7:5 pm" /\
  parse_target_time (hour_minute_of "999-01-02 07:00:00") = parse_target_time "7:00".
Proof.
  split.
  - apply (printed_alarm_parses_back "7:5 pm" (mktime 19 5 0 0)
             (mkdatetime (mkdate 2024 1 1) (mktime 20 0 0 0))
             (mkdatetime (mkdate 2024 1 2) (mktime 19 5 0 0))); reflexivity.
  - apply (printed_alarm_parses_back "7:00" (mktime 7 0 0 0)
             (mkdatetime (mkdate 999 1 1) (mktime 8 0 0 0))
             (mkdatetime (mkdate 999 1 2) (mktime 7 0 0 0))); reflexivity.
Defined.

(** ** confirm_target_today: the next occurrence *)

Lemma date_cmp_lt_iff (a b : date) :
  date_cmp a b = Lt <->
  year a < year b \/
  (year a = year b /\ (month a < month b \/ (month a = month b /\ day a < day b))).
Proof.
  unfold date_cmp.
  destruct (Z.compare_spec (year a) (year b));
    destruct (Z.compare_spec (month a) (month b));
    destruct (Z.compare_spec (day a) (day b)); simpl;
    split; intros; try discriminate; try reflexivity; lia.
Qed.

Lemma date_cmp_le_iff (a b : date) :
  date_cmp a b <> Gt <->
  year a < year b \/
  (year a = year b /\ (month a < month b \/ (month a = month b /\ day a <= day b))).
Proof.
  unfold date_cmp.
  destruct (Z.compare_spec (year a) (year b));
    destruct (Z.compare_spec (month a) (month b));
    destruct (Z.compare_spec (day a) (day b)); simpl;
    split; intros; try discriminate; try congruence; lia.
Qed.

Lemma time_cmp_refl (t : time) : time_cmp t t = Eq.
Proof. unfold time_cmp. rewrite !Z.compare_refl. reflexivity. Qed.

(** No date lies strictly between a day and the next. *)
Lemma next_day_least (d x : date) :
  valid_date d -> valid_date x -> date_cmp d x = Lt -> date_cmp (next_day d) x <> Gt.
Proof.
  intros (Hy & Hm & Hd) (Hy' & Hm' & Hd') Hlt.
  apply date_cmp_lt_iff in Hlt. apply date_cmp_le_iff.
  assert (Hsame : year d = year x -> month d = month x ->
                  days_in_month (year x) (month x) = days_in_month (year d) (month d))
    by (intros -> ->; reflexivity).
  unfold next_day.
  destruct (day d <? days_in_month (year d) (month d)) eqn:E1; simpl.
  - apply Z.ltb_lt in E1. lia.
  - apply Z.ltb_ge in E1. destruct (month d <? 12) eqn:E2; simpl.
    + apply Z.ltb_lt in E2. lia.
    + apply Z.ltb_ge in E2. lia.
Qed.

(** X5: the instant [confirm_target_today] returns is the earliest one
    after [now] at the target's time of day: every instant later than
    [now] with that time of day is at or after it. *)
Theorem confirm_returns_earliest (now r x : datetime) (target : time)
        (Hnow : valid_date (date_of now)) (Hx : valid_date (date_of x))
        (Hr : confirm_target_today now target = inr r)
        (Htime : time_of x = target)
        (Hlater : lt now x) :
  le r x.
Proof.
  destruct now as [d tn], x as [dx tx]. simpl in *. subst tx.
  unfold lt, le, cmp in *. simpl in *.
  unfold confirm_target_today in Hr. simpl in Hr.
  destruct (leb (combine d target) {| date_of := d; time_of := tn |}) eqn:E.
  - unfold add in Hr. simpl in Hr. unfold date_succ in Hr.
    destruct (year (next_day d) <=? MAXYEAR); [|discriminate].
    injection Hr as <-. simpl. rewrite time_cmp_refl.
    unfold leb, cmp in E. simpl in E. rewrite date_cmp_refl in E. simpl in E.
    assert (Hdx : date_cmp d dx = Lt).
    { destruct (date_cmp d dx) eqn:Ed; simpl in Hlater; try congruence.
      rewrite (time_cmp_opp target tn) in Hlater.
      destruct (time_cmp target tn); simpl in *; congruence. }
    pose proof (next_day_least d dx Hnow Hx Hdx) as Hn.
    destruct (date_cmp (next_day d) dx); simpl; congruence.
  - injection Hr as <-. simpl. rewrite time_cmp_refl.
    destruct (date_cmp d dx); simpl in *; congruence.
Qed.

Lemma confirm_returns_earliest_witness :
  le (mkdatetime (mkdate 2024 3 1) (mktime 7 0 0 0))
     (mkdatetime (mkdate 2024 3 2) (mktime 7 0 0 0)).
Proof.
  apply (confirm_returns_earliest
           (mkdatetime (mkdate 2024 2 29) (mktime 8 0 0 0))
           (mkdatetime (mkdate 2024 3 1) (mktime 7 0 0 0))
           (mkdatetime (mkdate 2024 3 2) (mktime 7 0 0 0))
           (mktime 7 0 0 0)).
  - valid_by_computation.
  - valid_by_computation.
  - reflexivity.
  - reflexivity.
  - reflexivity.
Defined.

(** X6: the alarm is never more than a day away: the instant returned is
    on [now]'s date or on the day after, and not later than the same
    time of day as [now] on that next day. *)
Theorem confirm_within_a_day (now r : datetime) (target : time)
        (Hr : confirm_target_today now target = inr r) :
  (date_of r = date_of now \/ date_of r = next_day (date_of now)) /\
  le r (mkdatetime (next_day (date_of now)) (time_of now)).
Proof.
  destruct now as [d tn]. unfold confirm_target_today in Hr. simpl in *.
  destruct (leb (combine d target) {| date_of := d; time_of := tn |}) eqn:E.
  - unfold add in Hr. simpl in Hr. unfold date_succ in Hr.
    destruct (year (next_day d) <=? MAXYEAR); [|discriminate].
    injection Hr as <-. simpl. split; [right; reflexivity|].
    unfold leb, cmp in E. simpl in E. rewrite date_cmp_refl in E. simpl in E.
    unfold le, cmp. simpl. rewrite date_cmp_refl. simpl.
    destruct (time_cmp target tn); congruence.
  - injection Hr as <-. simpl. split; [left; reflexivity|].
    unfold le, cmp. simpl. rewrite next_day_after. simpl. discriminate.
Qed.

Lemma confirm_within_a_day_witness :
  (mkdate 2024 1 2 = mkdate 2024 1 1 \/ mkdate 2024 1 2 = next_day (mkdate 2024 1 1)) /\
  le (mkdatetime (mkdate 2024 1 2) (mktime 7 0 0 0))
     (mkdatetime (next_day (mkdate 2024 1 1)) (mktime 8 0 0 0)).
Proof.
  apply (confirm_within_a_day
           (mkdatetime (mkdate 2024 1 1) (mktime 8 0 0 0))
           (mkdatetime (mkdate 2024 1 2) (mktime 7 0 0 0))
           (mktime 7 0 0 0)).
  reflexivity.
Defined.

(** ** main: the wait and the trigger *)

Lemma triggers_app (a b : list event) : triggers (a ++ b) = (triggers a + triggers b)%nat.
Proof.
  induction a as [|ev a IH]; simpl; [reflexivity|].
  destruct ev; simpl; rewrite IH; reflexivity.
Qed.

Lemma sleeps_app (a b : list event) : sleeps (a ++ b) = (sleeps a + sleeps b)%nat.
Proof.
  induction a as [|ev a IH]; simpl; [reflexivity|].
  destruct ev; simpl; rewrite IH; reflexivity.
Qed.

Lemma triggers_tries (calls : list call) : triggers (map Try calls) = 0%nat.
Proof. induction calls; simpl; auto. Qed.

Lemma sleeps_tries (calls : list call) : sleeps (map Try calls) = 0%nat.
Proof. induction calls; simpl; auto. Qed.

Lemma triggers_sleeping (n : nat) : triggers (repeat (Sleep INTERVAL_SECONDS) n) = 0%nat.
Proof. induction n; simpl; auto. Qed.

Lemma sleeps_sleeping (n : nat) : sleeps (repeat (Sleep INTERVAL_SECONDS) n) = n.
Proof. induction n; simpl; auto. Qed.

(** X7: when the clock first reads the alarm time or later after [n]
    earlier readings, [main] has slept exactly [n] times, triggers the
    sound exactly once and, the playback having returned, prints "Done."
    and ends with status 0. *)
Theorem main_rings_once (w : world) (target : time) (alarm_dt t : datetime)
        (before : list datetime) (sleep : nap) (rest : list poll) (calls : list call)
        (Hparse : parse_target_time (target_of w) = inr target)
        (Halarm : confirm_target_today (start w) target = inr alarm_dt)
        (Hpolls : polls w = (quiet before ++ Clock t sleep :: rest)%list)
        (Hbefore : Forall (fun t' => lt t' alarm_dt) before)
        (Hdue : le alarm_dt t)
        (Hplay : play_sound (sys_host w) (sound_of w) = (calls, Return_)) :
  main w
  = ([Print ("Alarm set for: " ++ stamp alarm_dt);
      Print ("Sound file: " ++ sound_of w)]
     ++ repeat (Sleep INTERVAL_SECONDS) (List.length before)
     ++ [Print "Alarm time reached. Playing sound..."; Trigger (sound_of w)]
     ++ map Try calls
     ++ [Print "Done."],
     Finished)%list /\
  triggers (fst (main w)) = 1%nat /\
  sleeps (fst (main w)) = List.length before /\
  exit_status (snd (main w)) = Some 0.
Proof.
  assert (Hmain : main w
    = ([Print ("Alarm set for: " ++ stamp alarm_dt);
        Print ("Sound file: " ++ sound_of w)]
       ++ repeat (Sleep INTERVAL_SECONDS) (List.length before)
       ++ [Print "Alarm time reached. Playing sound..."; Trigger (sound_of w)]
       ++ map Try calls
       ++ [Print "Done."],
       Finished)%list).
  { rewrite main_unfold, Hparse, Halarm, Hpolls.
    rewrite (wait_loop_quiet _ _ _ _ _ Hbefore), (wait_loop_due _ _ _ _ _ _ Hdue), Hplay.
    reflexivity. }
  rewrite Hmain. split; [reflexivity|]. cbn [fst snd].
  rewrite !triggers_app, !sleeps_app, triggers_sleeping, sleeps_sleeping,
    triggers_tries, sleeps_tries.
  simpl. repeat split; lia.
Qed.

Lemma main_rings_once_witness :
  triggers
    (fst (main (mkworld ["alarmclock.py"; "7:00"]
                  (mkhost "darwin" (fun p => p) (fun _ => true)
                     (fun c => match c with Playsound _ => Raised | _ => Completed end))
                  (mkdatetime (mkdate 2024 1 1) (mktime 6 59 58 0))
                  [Clock (mkdatetime (mkdate 2024 1 1) (mktime 6 59 58 0)) Slept;
                   Clock (mkdatetime (mkdate 2024 1 1) (mktime 6 59 59 0)) Slept;
                   Clock (mkdatetime (mkdate 2024 1 1) (mktime 7 0 0 0)) Slept])))
  = 1%nat.
Proof.
  apply (main_rings_once _ (mktime 7 0 0 0)
           (mkdatetime (mkdate 2024 1 1) (mktime 7 0 0 0))
           (mkdatetime (mkdate 2024 1 1) (mktime 7 0 0 0))
           [mkdatetime (mkdate 2024 1 1) (mktime 6 59 58 0);
            mkdatetime (mkdate 2024 1 1) (mktime 6 59 59 0)]
           Slept []
           [Playsound "alarm.aif"; Subprocess ["afplay"; "alarm.aif"]]).
  - reflexivity.
  - reflexivity.
  - reflexivity.
  - repeat constructor.
  - unfold le. vm_compute. discriminate.
  - reflexivity.
Defined.

Lemma wait_loop_early (h : host) (soundfile : string) (alarm_dt : datetime)
      (ps : list poll) :
  Forall (early alarm_dt) ps ->
  Forall silent (fst (wait_loop h soundfile alarm_dt ps)) /\
  (snd (wait_loop h soundfile alarm_dt ps) = Running \/
   snd (wait_loop h soundfile alarm_dt ps) = Exit 0).
Proof.
  induction 1 as [|p ps Hp _ IH]; simpl.
  - split; [constructor | left; reflexivity].
  - destruct p as [|t sleep]; simpl in Hp.
    + split; [repeat constructor | right; reflexivity].
    + rewrite (lt_geb_false _ _ Hp). destruct sleep.
      * rewrite prepend_fst, prepend_snd. split; [|apply IH].
        constructor; [exact I | apply IH].
      * split; [repeat constructor | right; reflexivity].
Qed.

(** X8: as long as every clock reading is before the alarm, [main] neither
    triggers the sound nor tries a playback mechanism, whatever the
    signals do: it is still waiting, or it was cancelled with code 0. *)
Theorem no_sound_before_alarm (w : world) (target : time) (alarm_dt : datetime)
        (Hparse : parse_target_time (target_of w) = inr target)
        (Halarm : confirm_target_today (start w) target = inr alarm_dt)
        (Hearly : Forall (early alarm_dt) (polls w)) :
  Forall silent (fst (main w)) /\
  triggers (fst (main w)) = 0%nat /\
  (snd (main w) = Running \/ snd (main w) = Exit 0).
Proof.
  rewrite main_unfold, Hparse, Halarm.
  destruct (wait_loop_early (sys_host w) (sound_of w) alarm_dt (polls w) Hearly)
    as (Hsilent & Hout).
  rewrite prepend_fst, prepend_snd. split; [|split; [|exact Hout]].
  - repeat constructor. exact Hsilent.
  - simpl. revert Hsilent.
    generalize (fst (wait_loop (sys_host w) (sound_of w) alarm_dt (polls w))).
    induction 1 as [|ev evs Hev _ IH]; [reflexivity|].
    destruct ev; simpl in *; try contradiction; exact IH.
Qed.

Lemma no_sound_before_alarm_witness :
  snd (main (mkworld ["alarmclock.py"; "7:00"]
               (mkhost "linux" (fun p => p) (fun _ => true) (fun _ => Completed))
               (mkdatetime (mkdate 2024 1 1) (mktime 6 0 0 0))
               [Clock (mkdatetime (mkdate 2024 1 1) (mktime 6 0 1 0)) Slept;
                Clock (mkdatetime (mkdate 2024 1 1) (mktime 6 59 59 999999)) Slept]))
  = Running.
Proof.
  destruct (no_sound_before_alarm
              (mkworld ["alarmclock.py"; "7:00"]
                 (mkhost "linux" (fun p => p) (fun _ => true) (fun _ => Completed))
                 (mkdatetime (mkdate 2024 1 1) (mktime 6 0 0 0))
                 [Clock (mkdatetime (mkdate 2024 1 1) (mktime 6 0 1 0)) Slept;
                  Clock (mkdatetime (mkdate 2024 1 1) (mktime 6 59 59 999999)) Slept])
              (mktime 7 0 0 0)
              (mkdatetime (mkdate 2024 1 1) (mktime 7 0 0 0))
              eq_refl eq_refl) as (_ & _ & [H | H]).
  - repeat constructor.
  - exact H.
  - discriminate H.
Defined.

(** How the wait loop can end, and how often it has triggered by then. *)
Lemma wait_loop_outcome (h : host) (soundfile : string) (alarm_dt : datetime)
      (ps : list poll) :
  let r := wait_loop h soundfile alarm_dt ps in
  (snd r = Running /\ triggers (fst r) = 0%nat) \/
  (snd r = Finished /\ triggers (fst r) = 1%nat) \/
  (snd r = Exit 3 /\ triggers (fst r) = 1%nat) \/
  (snd r = Exit 0 /\ (triggers (fst r) <= 1)%nat).
Proof.
  cbv zeta. induction ps as [|p ps IH]; simpl.
  - left. split; reflexivity.
  - destruct p as [|t sleep].
    + right. right. right. split; [reflexivity | simpl; lia].
    + destruct (geb t alarm_dt).
      * destruct (play_sound h soundfile) as [calls fl].
        destruct fl as [| |e]; [| |destruct e];
          unfold prepend, cancelled; cbn [fst snd app triggers];
          rewrite triggers_app, triggers_tries;
          solve [ right; left; split; reflexivity
                | right; right; left; split; reflexivity
                | right; right; right; split; [reflexivity | simpl; lia] ].
      * destruct sleep.
        -- rewrite prepend_fst, prepend_snd. simpl. exact IH.
        -- right. right. right. split; [reflexivity | simpl; lia].
Qed.

(** X9: in every run the sound is triggered at most once: not at all
    while the program still waits, exactly once when it ends after
    "Done." or with exit code 3. *)
Theorem sound_triggered_at_most_once (w : world) :
  (triggers (fst (main w)) <= 1)%nat /\
  (snd (main w) = Running -> triggers (fst (main w)) = 0%nat) /\
  (snd (main w) = Finished -> triggers (fst (main w)) = 1%nat) /\
  (snd (main w) = Exit 3 -> triggers (fst (main w)) = 1%nat).
Proof.
  rewrite main_unfold.
  destruct (parse_target_time (target_of w)) as [e|target].
  { simpl. repeat split; try discriminate; lia. }
  destruct (confirm_target_today (start w) target) as [e|alarm_dt].
  { simpl. repeat split; try discriminate; lia. }
  rewrite prepend_fst, prepend_snd. cbn [app triggers].
  destruct (wait_loop_outcome (sys_host w) (sound_of w) alarm_dt (polls w))
    as [(-> & ->) | [(-> & ->) | [(-> & ->) | (-> & Hle)]]];
    repeat split; try discriminate; try reflexivity; lia.
Qed.

Lemma sound_triggered_at_most_once_witness :
  triggers
    (fst (main (mkworld ["alarmclock.py"; "7:00"; "missing.wav"]
                  (mkhost "linux" (fun p => p) (fun _ => false) (fun _ => Raised))
                  (mkdatetime (mkdate 2024 1 1) (mktime 6 59 59 0))
                  [Clock (mkdatetime (mkdate 2024 1 1) (mktime 7 0 0 5)) Slept;
                   Clock (mkdatetime (mkdate 2024 1 1) (mktime 7 0 1 5)) Slept])))
  = 1%nat.
Proof.
  apply (proj2 (proj2 (proj2 (sound_triggered_at_most_once _)))). reflexivity.
Defined.

(** X10: [main] exits with code 2 exactly when the time string is
    rejected; once the string is accepted no later step exits with 2. *)
Theorem exit_2_iff_rejected (w : world) :
  snd (main w) = Exit 2 <-> exists e, parse_target_time (target_of w) = inl e.
Proof.
  rewrite main_unfold.
  destruct (parse_target_time (target_of w)) as [e|target].
  { split; [eauto | reflexivity]. }
  split; [|intros (e & He); discriminate].
  destruct (confirm_target_today (start w) target) as [e|alarm_dt]; [discriminate|].
  rewrite prepend_snd.
  destruct (wait_loop_outcome (sys_host w) (sound_of w) alarm_dt (polls w))
    as [(-> & _) | [(-> & _) | [(-> & _) | (-> & _)]]]; discriminate.
Qed.

Lemma exit_2_iff_rejected_witness :
  snd (main (mkworld ["alarmclock.py"; "25:00"]
               (mkhost "linux" (fun p => p) (fun _ => true) (fun _ => Completed))
               (mkdatetime (mkdate 2024 1 1) (mktime 6 0 0 0)) []))
  = Exit 2.
Proof.
  apply (proj2 (exit_2_iff_rejected _)). eexists. vm_compute. reflexivity.
Defined.

Lemma for_each_interrupted (h : host) (pre : list call) (c : call) (post : list call) :
  Forall (raised h) pre -> perform h c = Interrupted ->
  for_each h (pre ++ c :: post) = ((pre ++ [c])%list, Raise KeyboardInterrupt).
Proof.
  intros Hpre Hc. rewrite for_each_app, (for_each_all_raised _ _ Hpre).
  simpl. unfold attempt. rewrite Hc. reflexivity.
Qed.

(** X11: an interrupt that arrives while a playback mechanism runs is not
    swallowed like the mechanism's own failures: no further mechanism is
    tried, and [main] reports the cancellation and exits with code 0,
    not 3. *)
Theorem interrupted_playback_cancels (w : world) (target : time) (alarm_dt t : datetime)
        (before : list datetime) (sleep : nap) (rest : list poll)
        (pre : list call) (c : call) (post : list call)
        (Hparse : parse_target_time (target_of w) = inr target)
        (Halarm : confirm_target_today (start w) target = inr alarm_dt)
        (Hpolls : polls w = (quiet before ++ Clock t sleep :: rest)%list)
        (Hbefore : Forall (fun t' => lt t' alarm_dt) before)
        (Hdue : le alarm_dt t)
        (Hfile : isfile (sys_host w) (expanduser (sys_host w) (sound_of w)) = true)
        (Hmech : mechanisms (platform (sys_host w))
                            (expanduser (sys_host w) (sound_of w))
                 = (pre ++ c :: post)%list)
        (Hpre : Forall (raised (sys_host w)) pre)
        (Hint : perform (sys_host w) c = Interrupted) :
  play_sound (sys_host w) (sound_of w) = ((pre ++ [c])%list, Raise KeyboardInterrupt) /\
  main w
  = ([Print ("Alarm set for: " ++ stamp alarm_dt);
      Print ("Sound file: " ++ sound_of w)]
     ++ repeat (Sleep INTERVAL_SECONDS) (List.length before)
     ++ [Print "Alarm time reached. Playing sound..."; Trigger (sound_of w)]
     ++ map Try (pre ++ [c])
     ++ [Print cancel_line],
     Exit 0)%list.
Proof.
  assert (Hplay : play_sound (sys_host w) (sound_of w)
                  = ((pre ++ [c])%list, Raise KeyboardInterrupt)).
  { rewrite (play_sound_unfold _ _ Hfile), Hmech,
      (for_each_interrupted _ _ _ _ Hpre Hint). reflexivity. }
  split; [exact Hplay|].
  rewrite main_unfold, Hparse, Halarm, Hpolls.
  rewrite (wait_loop_quiet _ _ _ _ _ Hbefore), (wait_loop_due _ _ _ _ _ _ Hdue), Hplay.
  reflexivity.
Qed.

Lemma interrupted_playback_cancels_witness :
  snd (main (mkworld ["alarmclock.py"; "7:00"]
               (mkhost "linux" (fun p => p) (fun _ => true)
                  (fun c => match c with
                            | Subprocess ("paplay" :: _) => Interrupted
                            | _ => Raised
                            end))
               (mkdatetime (mkdate 2024 1 1) (mktime 6 59 59 0))
               [Clock (mkdatetime (mkdate 2024 1 1) (mktime 7 0 0 0)) Slept]))
  = Exit 0.
Proof.
  pose (w := mkworld ["alarmclock.py"; "7:00"]
               (mkhost "linux" (fun p => p) (fun _ => true)
                  (fun c => match c with
                            | Subprocess ("paplay" :: _) => Interrupted
                            | _ => Raised
                            end))
               (mkdatetime (mkdate 2024 1 1) (mktime 6 59 59 0))
               [Clock (mkdatetime (mkdate 2024 1 1) (mktime 7 0 0 0)) Slept]).
  change (snd (main w) = Exit 0).
  rewrite (proj2 (interrupted_playback_cancels w (mktime 7 0 0 0)
                    (mkdatetime (mkdate 2024 1 1) (mktime 7 0 0 0))
                    (mkdatetime (mkdate 2024 1 1) (mktime 7 0 0 0))
                    [] Slept []
                    [Playsound "alarm.aif"] (Subprocess ["paplay"; "alarm.aif"])
                    [Subprocess ["aplay"; "alarm.aif"];
                     Subprocess ["ffplay"; "-nodisp"; "-autoexit"; "alarm.aif"]]
                    eq_refl eq_refl eq_refl (Forall_nil _)
                    ltac:(unfold le; vm_compute; discriminate)
                    eq_refl eq_refl
                    ltac:(repeat constructor) eq_refl)).
  reflexivity.
Defined.

(** X12: on 9999-12-31, with a target not later than the clock, the day
    after cannot be represented: [main] ends on the uncaught
    [OverflowError] before it has printed anything, and never waits. *)
Theorem main_overflow_on_last_day (w : world) (target : time)
        (Hparse : parse_target_time (target_of w) = inr target)
        (Hlast : date_of (start w) = last_day)
        (Hpast : le (combine (date_of (start w)) target) (start w)) :
  main w = ([], Uncaught (Overflow "date value out of range")) /\
  exit_status (snd (main w)) = Some 1.
Proof.
  assert (Hmain : main w = ([], Uncaught (Overflow "date value out of range"))).
  { rewrite main_unfold, Hparse, (confirm_next_day _ _ Hpast), Hlast. reflexivity. }
  rewrite Hmain. split; reflexivity.
Qed.

Lemma main_overflow_on_last_day_witness :
  main (mkworld ["alarmclock.py"; "7:00"]
          (mkhost "linux" (fun p => p) (fun _ => true) (fun _ => Completed))
          (mkdatetime (mkdate 9999 12 31) (mktime 8 0 0 0))
          [Clock (mkdatetime (mkdate 9999 12 31) (mktime 8 0 1 0)) Slept])
  = ([], Uncaught (Overflow "date value out of range")).
Proof.
  apply (main_overflow_on_last_day _ (mktime 7 0 0 0)).
  - reflexivity.
  - reflexivity.
  - unfold le. vm_compute. discriminate.
Defined.

(** ** What parse_target_time accepts, format by format *)

Lemma reads_sound (s : string) (expected : option (Z * Z)) :
  reads s expected = true -> reading s expected.
Proof.
  destruct expected as [[h m]|]; simpl.
  - apply parses_to_eq.
  - unfold rejected. destruct (parse_target_time s) as [e|t]; [eauto | discriminate].
Qed.

Lemma spelled_in (n : Z) (nn : string) :
  nn = dec n \/ nn = pad2 n -> In nn [dec n; pad2 n].
Proof. intros [-> | ->]; simpl; auto. Qed.

Lemma colon_table : over (upto 0 30) (upto 0 70) colon_ok = true.
Proof. vm_cast_no_check (eq_refl true). Qed.

(** X13: on the 24-hour clock with a colon, for every hour 0-29 and
    minute 0-69 written with one or two digits each, the string is read
    as that hour and minute when the hour is at most 23 and the minute at
    most 59, and rejected otherwise: "7:5" is 07:05, "24:00" and "7:60"
    are errors. *)
Theorem colon_24_hour_reading (h m : Z) (hh mm : string)
        (Hh : 0 <= h <= 29) (Hm : 0 <= m <= 69)
        (Hhh : hh = dec h \/ hh = pad2 h) (Hmm : mm = dec m \/ mm = pad2 m) :
  reading (hh ++ ":" ++ mm)
          (if (h <=? 23) && (m <=? 59) then Some (h, m) else None).
Proof.
  assert (Hok : colon_ok h m = true).
  { apply (over_sound _ 0 0 30 70 colon_table); simpl; lia. }
  unfold colon_ok in Hok. rewrite forallb_forall in Hok.
  specialize (Hok hh (spelled_in _ _ Hhh)). rewrite forallb_forall in Hok.
  apply reads_sound, (Hok mm (spelled_in _ _ Hmm)).
Qed.

Lemma colon_24_hour_reading_witness :
  parse_target_time "7:5" = inr (mktime 7 5 0 0) /\
  (exists e, parse_target_time "24:00" = inl e) /\
  (exists e, parse_target_time "7:60" = inl e).
Proof.
  split; [|split].
  - apply (colon_24_hour_reading 7 5 "7" "5"); [lia | lia | left | left]; reflexivity.
  - apply (colon_24_hour_reading 24 0 "24" "00"); [lia | lia | left | right]; reflexivity.
  - apply (colon_24_hour_reading 7 60 "7" "60"); [lia | lia | left | left]; reflexivity.
Defined.

Lemma four_digit_table : over (upto 0 30) (upto 0 70) four_digit_ok = true.
Proof. vm_cast_no_check (eq_refl true). Qed.

(** X14: four digits "hhmm", for hh in 00-29 and mm in 00-69, are read
    as hour hh, minute mm when hh is at most 23 and mm at most 59, and
    rejected otherwise. *)
Theorem four_digits_reading (h m : Z)
        (Hh : 0 <= h <= 29) (Hm : 0 <= m <= 69) :
  reading (pad2 h ++ pad2 m)
          (if (h <=? 23) && (m <=? 59) then Some (h, m) else None).
Proof.
  apply reads_sound.
  apply (over_sound four_digit_ok 0 0 30 70 four_digit_table); simpl; lia.
Qed.

Lemma four_digits_reading_witness :
  parse_target_time "0700" = inr (mktime 7 0 0 0) /\
  (exists e, parse_target_time "2400" = inl e).
Proof.
  split.
  - apply (four_digits_reading 7 0); lia.
  - apply (four_digits_reading 24 0); lia.
Defined.

Lemma three_digit_all_table : over (upto 0 10) (upto 0 100) three_digit_all_ok = true.
Proof. vm_cast_no_check (eq_refl true). Qed.

(** X15: three digits "abc" are read with a two-digit hour whenever "ab"
    is at most 23 (hour ab, minute c: "100" is 10:00, "235" is 23:05),
    else with a one-digit hour when "bc" is at most 59 ("245" is 02:45),
    and rejected otherwise ("260"). *)
Theorem three_digits_reading (a m : Z)
        (Ha : 0 <= a <= 9) (Hm : 0 <= m <= 99) :
  reading (String (PyStr.digit_char a) (pad2 m))
          (if 10 * a + m / 10 <=? 23 then Some (10 * a + m / 10, m mod 10)
           else if m <=? 59 then Some (a, m)
           else None).
Proof.
  apply reads_sound.
  apply (over_sound three_digit_all_ok 0 0 10 100 three_digit_all_table); simpl; lia.
Qed.

Lemma three_digits_reading_witness :
  parse_target_time "100" = inr (mktime 10 0 0 0) /\
  parse_target_time "245" = inr (mktime 2 45 0 0) /\
  (exists e, parse_target_time "260" = inl e).
Proof.
  split; [|split].
  - apply (three_digits_reading 1 0); lia.
  - apply (three_digits_reading 2 45); lia.
  - apply (three_digits_reading 2 60); lia.
Defined.

Lemma colon_marker_table : over (upto 0 20) (upto 0 70) colon_marker_ok = true.
Proof. vm_cast_no_check (eq_refl true). Qed.

(** X16: on the 12-hour clock with a colon, among the hours 0-19 and the
    minutes 00-69, "h:mm AM" and "h:mm PM" are read only for hours 1-12
    and minutes 00-59; hour 0, hours 13-19 and minutes 60-69 are
    rejected, so "0:30 AM" and "13:00 PM" are errors. *)
Theorem colon_12_hour_reading (h m : Z) (hh : string)
        (Hh : 0 <= h <= 19) (Hm : 0 <= m <= 69)
        (Hhh : hh = dec h \/ hh = pad2 h) :
  reading (hh ++ ":" ++ pad2 m ++ " AM")
          (if (1 <=? h) && (h <=? 12) && (m <=? 59)
           then Some ((if h =? 12 then 0 else h), m) else None) /\
  reading (hh ++ ":" ++ pad2 m ++ " PM")
          (if (1 <=? h) && (h <=? 12) && (m <=? 59)
           then Some ((if h =? 12 then 12 else h + 12), m) else None).
Proof.
  assert (Hok : colon_marker_ok h m = true).
  { apply (over_sound _ 0 0 20 70 colon_marker_table); simpl; lia. }
  unfold colon_marker_ok in Hok. rewrite forallb_forall in Hok.
  specialize (Hok hh (spelled_in _ _ Hhh)). simpl in Hok.
  rewrite !andb_true_iff in Hok. destruct Hok as (Ham & Hpm & _).
  split; apply reads_sound; assumption.
Qed.

Lemma colon_12_hour_reading_witness :
  (exists e, parse_target_time "0:30 AM" = inl e) /\
  (exists e, parse_target_time "13:00 PM" = inl e).
Proof.
  split.
  - apply (colon_12_hour_reading 0 30 "0"); [lia | lia | left; reflexivity].
  - apply (colon_12_hour_reading 13 0 "13"); [lia | lia | left; reflexivity].
Defined.

Lemma lenient_table : over (upto 1 12) (upto 0 60) lenient_ok = true.
Proof. vm_cast_no_check (eq_refl true). Qed.

(** X17: the marker of a 12-hour time may be written in upper, lower or
    mixed case, and directly after the minute or after a tab: for every
    hour 1-12 and minute 00-59 the time read is the same. *)
Theorem twelve_hour_spellings (h m : Z) (sep mk : string) (pm : bool)
        (Hh : 1 <= h <= 12) (Hm : 0 <= m <= 59)
        (Hsep : In sep [EmptyString; tab])
        (Hmk : In (mk, pm) markers) :
  parse_target_time (dec h ++ ":" ++ pad2 m ++ sep ++ mk)
  = inr (mktime (if pm then (if h =? 12 then 12 else h + 12)
                 else (if h =? 12 then 0 else h)) m 0 0).
Proof.
  assert (Hok : lenient_ok h m = true).
  { apply (over_sound _ 1 0 12 60 lenient_table); simpl; lia. }
  unfold lenient_ok in Hok. rewrite forallb_forall in Hok.
  specialize (Hok sep Hsep). rewrite forallb_forall in Hok.
  specialize (Hok (mk, pm) Hmk). apply parses_to_eq in Hok. exact Hok.
Qed.

Lemma twelve_hour_spellings_witness :
  parse_target_time "7:05pM" = inr (mktime 19 5 0 0).
Proof.
  apply (twelve_hour_spellings 7 5 "" "pM" true);
    [lia | lia | simpl; auto | simpl; auto 10].
Defined.

Lemma hour_marker_table : over (upto 0 100) (upto 0 2) hour_marker_ok = true.
Proof. vm_cast_no_check (eq_refl true). Qed.

(** X18: one or two digits and a marker.  A number 1-12 is the hour, with
    minute 0 ("7 pm" is 19:00, "12 am" is 00:00).  A two-digit number
    that is no such hour is split into a one-digit hour and a one-digit
    minute ("13 pm" is 13:03, "45 am" is 04:05); "0 am" and "00 am" are
    rejected.  The marker may have any case and follow a blank or a
    tab. *)
Theorem hour_and_marker_reading (n : Z) (nn sep mk : string) (pm : bool)
        (Hn : 0 <= n <= 99)
        (Hnn : nn = dec n \/ nn = pad2 n)
        (Hsep : In sep [" "; tab])
        (Hmk : In (mk, pm) markers) :
  reading (nn ++ sep ++ mk)
          (if (1 <=? n) && (n <=? 12) then Some (to24 pm n, 0)
           else if 10 <=? n then Some (to24 pm (n / 10), n mod 10)
           else None).
Proof.
  assert (Hok : forall k, 0 <= k < 2 -> hour_marker_ok n k = true).
  { intros k Hk. apply (over_sound _ 0 0 100 2 hour_marker_table); simpl; lia. }
  assert (Hsep' : exists k, 0 <= k < 2 /\ sep = if k =? 0 then " " else tab).
  { simpl in Hsep. destruct Hsep as [<- | [<- | []]];
      [exists 0 | exists 1]; split; try lia; reflexivity. }
  destruct Hsep' as (k & Hk & ->).
  specialize (Hok k Hk). unfold hour_marker_ok in Hok. rewrite forallb_forall in Hok.
  specialize (Hok nn (spelled_in _ _ Hnn)). rewrite forallb_forall in Hok.
  apply reads_sound, (Hok (mk, pm) Hmk).
Qed.

Lemma hour_and_marker_reading_witness :
  parse_target_time "7 pm" = inr (mktime 19 0 0 0) /\
  parse_target_time "13 pm" = inr (mktime 13 3 0 0) /\
  (exists e, parse_target_time "0 am" = inl e).
Proof.
  split; [|split].
  - apply (hour_and_marker_reading 7 "7" " " "pm" true);
      [lia | left; reflexivity | simpl; auto | simpl; auto 10].
  - apply (hour_and_marker_reading 13 "13" " " "pm" true);
      [lia | left; reflexivity | simpl; auto | simpl; auto 10].
  - apply (hour_and_marker_reading 0 "0" " " "am" false);
      [lia | left; reflexivity | simpl; auto | simpl; auto 10].
Defined.

Lemma three_digit_marker_table :
  over (upto 0 10) (upto 0 100) three_digit_marker_ok = true.
Proof. vm_cast_no_check (eq_refl true). Qed.

(** X19: three digits "abc" and a marker.  When "ab" is an hour 01-12 it
    is taken as the hour and "c" as the minute, so "115 PM" is 23:05 and
    not a quarter past one; otherwise "a" (1-9) is the hour and "bc" (at
    most 59) the minute, so "730 PM" is 19:30; anything else is
    rejected. *)
Theorem three_digits_and_marker_reading (a m : Z)
        (Ha : 0 <= a <= 9) (Hm : 0 <= m <= 99) :
  reading (String (PyStr.digit_char a) (pad2 m) ++ " AM")
          (three_digit_marker_reading false a m) /\
  reading (String (PyStr.digit_char a) (pad2 m) ++ " PM")
          (three_digit_marker_reading true a m).
Proof.
  assert (Hok : three_digit_marker_ok a m = true).
  { apply (over_sound _ 0 0 10 100 three_digit_marker_table); simpl; lia. }
  unfold three_digit_marker_ok in Hok. simpl in Hok.
  rewrite !andb_true_iff in Hok. destruct Hok as (Ham & Hpm & _).
  split; apply reads_sound; assumption.
Qed.

Lemma three_digits_and_marker_reading_witness :
  parse_target_time "115 PM" = inr (mktime 23 5 0 0) /\
  parse_target_time "730 PM" = inr (mktime 19 30 0 0).
Proof.
  split.
  - apply (three_digits_and_marker_reading 1 15); lia.
  - apply (three_digits_and_marker_reading 7 30); lia.
Defined.

Lemma four_digit_marker_table :
  over (upto 0 20) (upto 0 70) four_digit_marker_ok = true.
Proof. vm_cast_no_check (eq_refl true). Qed.

(** X20: four digits "hhmm" and a marker, for hh in 00-19 and mm in
    00-69, are read as hh:mm of the 12-hour clock for hh 01-12 and mm
    00-59, and rejected otherwise. *)
Theorem four_digits_and_marker_reading (h m : Z)
        (Hh : 0 <= h <= 19) (Hm : 0 <= m <= 69) :
  reading (pad2 h ++ pad2 m ++ " AM")
          (if (1 <=? h) && (h <=? 12) && (m <=? 59)
           then Some ((if h =? 12 then 0 else h), m) else None) /\
  reading (pad2 h ++ pad2 m ++ " PM")
          (if (1 <=? h) && (h <=? 12) && (m <=? 59)
           then Some ((if h =? 12 then 12 else h + 12), m) else None).
Proof.
  assert (Hok : four_digit_marker_ok h m = true).
  { apply (over_sound _ 0 0 20 70 four_digit_marker_table); simpl; lia. }
  unfold four_digit_marker_ok in Hok. simpl in Hok.
  rewrite !andb_true_iff in Hok. destruct Hok as (Ham & Hpm & _).
  split; apply reads_sound; assumption.
Qed.

Lemma four_digits_and_marker_reading_witness :
  parse_target_time "1230 AM" = inr (mktime 0 30 0 0) /\
  (exists e, parse_target_time "1330 PM" = inl e).
Proof.
  split.
  - apply (four_digits_and_marker_reading 12 30); lia.
  - apply (four_digits_and_marker_reading 13 30); lia.
Defined.

(** ** play_sound: the players of each platform *)

Lemma linux_is_no_other (p : string) :
  PyStr.startswith p "linux" = true ->
  String.eqb p "darwin" = false /\ PyStr.startswith p "win" = false.
Proof.
  unfold PyStr.startswith. destruct p as [|c p]; [discriminate|].
  cbn [String.prefix]. destruct (ascii_dec "l" c) as [<-|]; [|discriminate].
  intros _. split; reflexivity.
Qed.

Lemma win_is_no_other (p : string) :
  PyStr.startswith p "win" = true ->
  String.eqb p "darwin" = false /\ PyStr.startswith p "linux" = false.
Proof.
  unfold PyStr.startswith. destruct p as [|c p]; [discriminate|].
  cbn [String.prefix]. destruct (ascii_dec "w" c) as [<-|]; [|discriminate].
  intros _. split; reflexivity.
Qed.

(** X21: when the file exists and every playback call fails, the calls
    [play_sound] has made before it raises are, in this order: playsound,
    then on a "linux..." platform paplay, aplay and ffplay, on "darwin"
    afplay, on a "win..." platform powershell, and on any other platform
    nothing more; the players of another platform are never called. *)
Theorem fallback_chain_by_platform (h : host) (soundfile : string)
        (Hfile : isfile h (expanduser h soundfile) = true)
        (Hall : forall c, perform h c = Raised) :
  let path := expanduser h soundfile in
  (PyStr.startswith (platform h) "linux" = true ->
   play_sound h soundfile
   = ([Playsound path; Subprocess ["paplay"; path]; Subprocess ["aplay"; path];
       Subprocess ["ffplay"; "-nodisp"; "-autoexit"; path]], Raise no_method)) /\
  (platform h = "darwin" ->
   play_sound h soundfile
   = ([Playsound path; Subprocess ["afplay"; path]], Raise no_method)) /\
  (PyStr.startswith (platform h) "win" = true ->
   play_sound h soundfile
   = ([Playsound path; Subprocess ["powershell"; "-Command"; ps_cmd path]],
      Raise no_method)) /\
  (PyStr.startswith (platform h) "linux" = false -> platform h <> "darwin" ->
   PyStr.startswith (platform h) "win" = false ->
   play_sound h soundfile = ([Playsound path], Raise no_method)).
Proof.
  cbv zeta.
  assert (Hplay : play_sound h soundfile
                  = (mechanisms (platform h) (expanduser h soundfile), Raise no_method)).
  { rewrite (play_sound_unfold _ _ Hfile), for_each_all_raised.
    - simpl. rewrite app_nil_r. reflexivity.
    - apply Forall_forall. intros c _. apply Hall. }
  rewrite Hplay. unfold mechanisms. repeat split.
  - intros Hl. destruct (linux_is_no_other _ Hl) as (-> & ->). rewrite Hl. reflexivity.
  - intros ->. reflexivity.
  - intros Hw. destruct (win_is_no_other _ Hw) as (-> & ->). rewrite Hw. reflexivity.
  - intros -> Hd ->. destruct (String.eqb (platform h) "darwin") eqn:E.
    + apply String.eqb_eq in E. contradiction.
    + reflexivity.
Qed.

Lemma fallback_chain_by_platform_witness :
  play_sound (mkhost "linux2" (fun p => p) (fun _ => true) (fun _ => Raised)) "a.wav"
  = ([Playsound "a.wav"; Subprocess ["paplay"; "a.wav"]; Subprocess ["aplay"; "a.wav"];
      Subprocess ["ffplay"; "-nodisp"; "-autoexit"; "a.wav"]], Raise no_method).
Proof.
  apply (proj1 (fallback_chain_by_platform
                  (mkhost "linux2" (fun p => p) (fun _ => true) (fun _ => Raised))
                  "a.wav" eq_refl (fun _ => eq_refl))).
  reflexivity.
Defined.

(** ** parse_target_time on strings no template admits *)

Import Template.

Lemma take_app_length (text s' : string) :
  PyStr.take (String.length text) (text ++ s') = text.
Proof. induction text as [|c text IH]; simpl; [destruct s'; reflexivity | rewrite IH; reflexivity]. Qed.

Lemma drop_app_length (text s' : string) :
  PyStr.drop (String.length text) (text ++ s') = s'.
Proof. induction text as [|c text IH]; simpl; [reflexivity | exact IH]. Qed.

Lemma length_app_leb (text s' : string) :
  (String.length text <=? String.length (text ++ s'))%nat = true.
Proof. induction text as [|c text IH]; simpl; [reflexivity | exact IH]. Qed.

Lemma digits_app (k : nat) (lo hi : Z) (text s' : string) :
  String.length text = k -> number lo hi text = true ->
  digits k lo hi (text ++ s') = true /\ PyStr.drop k (text ++ s') = s'.
Proof.
  intros <- Hn. unfold digits.
  rewrite length_app_leb, take_app_length, drop_app_length, Hn. split; reflexivity.
Qed.

Lemma fits_hour12 (r : reading) (rest : list item) (text s' : string) :
  (String.length text = 1 \/ String.length text = 2)%nat ->
  number 1 12 text = true -> fits r rest s' = true ->
  fits r (Hour12 :: rest) (text ++ s') = true.
Proof.
  intros Hlen Hn Hrest. cbn [fits].
  destruct Hlen as [Hlen | Hlen];
    destruct (digits_app _ 1 12 text s' Hlen Hn) as (-> & ->); rewrite Hrest; simpl;
    [reflexivity | apply orb_true_r].
Qed.

Lemma fits_hour24 (r : reading) (rest : list item) (text s' : string) :
  (String.length text = 1 \/ String.length text = 2)%nat ->
  number 0 23 text = true -> fits r rest s' = true ->
  fits r (Hour24 :: rest) (text ++ s') = true.
Proof.
  intros Hlen Hn Hrest. cbn [fits].
  destruct Hlen as [Hlen | Hlen];
    destruct (digits_app _ 0 23 text s' Hlen Hn) as (-> & ->); rewrite Hrest; simpl;
    [reflexivity | apply orb_true_r].
Qed.

Lemma fits_minute (rest : list item) (text s' : string) :
  (String.length text = 1 \/ String.length text = 2)%nat ->
  number 0 59 text = true -> fits AsParsed rest s' = true ->
  fits AsParsed (Minute :: rest) (text ++ s') = true.
Proof.
  intros Hlen Hn Hrest. cbn [fits].
  destruct Hlen as [Hlen | Hlen];
    destruct (digits_app _ 0 59 text s' Hlen Hn) as (-> & ->); rewrite Hrest; simpl;
    [reflexivity | apply orb_true_r].
Qed.

Lemma fits_colon (r : reading) (rest : list item) (s' : string) :
  fits r rest s' = true -> fits r (Colon :: rest) (String ":" s') = true.
Proof. intros Hrest. cbn [fits]. rewrite Hrest. reflexivity. Qed.

Lemma fits_blank (rest : list item) (w s' : string) :
  w <> EmptyString -> blank w = true -> PyStr.lstrip s' = s' ->
  fits AsParsed rest s' = true ->
  fits AsParsed (Blank :: rest) (w ++ s') = true.
Proof.
  intros Hne Hw Hs Hrest. destruct w as [|c w]; [congruence|].
  simpl in Hw. apply andb_true_iff in Hw. destruct Hw as (Hc & Hw).
  cbn [fits append]. rewrite Hc, (lstrip_blank _ _ Hw), Hs, Hrest. reflexivity.
Qed.

Lemma fits_marker (rest : list item) (text s' : string) :
  String.length text = 2%nat -> marker_ok AsParsed text = true ->
  fits AsParsed rest s' = true ->
  fits AsParsed (Marker :: rest) (text ++ s') = true.
Proof.
  intros Hlen Hmk Hrest. cbn [fits]. rewrite <- Hlen at 1 2 3.
  rewrite length_app_leb, take_app_length, drop_app_length, Hmk, Hrest. reflexivity.
Qed.

(** What each part of a format's regex consumes. *)
Ltac consumed_text :=
  match goal with
  | |- exists text, String ?a (String ?b ?s') = text ++ ?s' /\ _ =>
      exists (String a (String b EmptyString)); split; [reflexivity|]
  | |- exists text, String ?a ?s' = text ++ ?s' /\ _ =>
      exists (String a EmptyString); split; [reflexivity|]
  end.

Ltac number_in_range :=
  unfold number;
  first [rewrite int_two_digits by lia | rewrite int_one_digit by lia];
  apply andb_true_intro; split; apply Z.leb_le; lia.

Lemma matches_H_text (r : Re.regex) (s s' : string) (g g' : Re.groups) :
  Strptime.directive "H" = Some r -> Matches r s s' g g' ->
  exists text, s = text ++ s' /\
               (String.length text = 1 \/ String.length text = 2)%nat /\
               number 0 23 text = true.
Proof.
  intros Hdir H. vm_compute in Hdir. injection Hdir as <-.
  inv_match; char_bounds; consumed_text;
    (split; [simpl; auto | number_in_range]).
Qed.

Lemma matches_I_text (r : Re.regex) (s s' : string) (g g' : Re.groups) :
  Strptime.directive "I" = Some r -> Matches r s s' g g' ->
  exists text, s = text ++ s' /\
               (String.length text = 1 \/ String.length text = 2)%nat /\
               number 1 12 text = true.
Proof.
  intros Hdir H. vm_compute in Hdir. injection Hdir as <-.
  inv_match; char_bounds; consumed_text;
    (split; [simpl; auto | number_in_range]).
Qed.

Lemma matches_M_text (r : Re.regex) (s s' : string) (g g' : Re.groups) :
  Strptime.directive "M" = Some r -> Matches r s s' g g' ->
  exists text, s = text ++ s' /\
               (String.length text = 1 \/ String.length text = 2)%nat /\
               number 0 59 text = true.
Proof.
  intros Hdir H. vm_compute in Hdir. injection Hdir as <-.
  inv_match; char_bounds; consumed_text;
    (split; [simpl; auto | number_in_range]).
Qed.

Lemma isspace_lower (c : ascii) : PyStr.isspace (PyStr.lower_char c) = PyStr.isspace c.
Proof. destruct c as [[] [] [] [] [] [] [] []]; reflexivity. Qed.

Lemma lit_eq_isspace (c d : ascii) :
  Re.lit_eq c d = true -> PyStr.isspace d = PyStr.isspace c.
Proof.
  intros H. apply lit_eq_lower in H.
  rewrite <- (isspace_lower d), H. apply isspace_lower.
Qed.

Lemma lit_eq_colon (d : ascii) : Re.lit_eq ":" d = true -> d = ":"%char.
Proof.
  intros H. destruct d as [[] [] [] [] [] [] [] []];
    try reflexivity; vm_compute in H; discriminate.
Qed.

Lemma matches_p_text (r : Re.regex) (s s' : string) (g g' : Re.groups) :
  Strptime.directive "p" = Some r -> Matches r s s' g g' ->
  exists text, s = text ++ s' /\
               String.length text = 2%nat /\
               marker_ok AsParsed text = true /\
               forall x, PyStr.lstrip (text ++ x) = text ++ x.
Proof.
  intros Hdir H. vm_compute in Hdir. injection Hdir as <-.
  inv_match; consumed_text; (split; [reflexivity|]);
    repeat match goal with
           | H : Re.lit_eq _ _ = true |- _ =>
               pose proof (lit_eq_isspace _ _ H); apply lit_eq_lower in H
           end;
    (split; [unfold marker_ok; cbn [PyStr.lower];
             repeat match goal with
                    | H : PyStr.lower_char _ = _ |- _ => rewrite H; clear H
                    end; reflexivity
            | intros x; cbn [append PyStr.lstrip];
              repeat match goal with
                     | H : PyStr.isspace _ = _ |- _ => rewrite H; clear H
                     end; reflexivity]).
Qed.

Lemma Matches_blank_text (s s' : string) (g g' : Re.groups) :
  Matches (Re.Plus Re.Space) s s' g g' ->
  exists w, s = w ++ s' /\ w <> EmptyString /\ blank w = true.
Proof.
  intros H. remember (Re.Plus Re.Space) as r eqn:Hr.
  induction H; try discriminate; injection Hr as ->.
  - exists (String d EmptyString). repeat split; [discriminate|].
    simpl in *. rewrite H. reflexivity.
  - destruct (IHMatches eq_refl) as (w & -> & Hne & Hw).
    exists (String d w). repeat split; [discriminate|].
    simpl in *. rewrite H, Hw. reflexivity.
Qed.

(** Splits the input along the parts of the format that read it. *)
Ltac split_format :=
  repeat match goal with
         | H : Matches Re.Eps _ _ _ _ |- _ => inversion H; subst; clear H
         | H : Matches (Re.Cat _ _) _ _ _ _ |- _ => inversion H; subst; clear H
         | H : Matches (Re.Lit _) _ _ _ _ |- _ =>
             inversion H; subst; clear H;
             match goal with
             | E : Re.lit_eq ":" _ = true |- _ => apply lit_eq_colon in E; subst
             end
         | H : Matches (Re.Plus Re.Space) _ _ _ _ |- _ =>
             apply Matches_blank_text in H; destruct H as (? & -> & ? & ?)
         | H : Matches (Re.Group "H" _) _ _ _ _ |- _ =>
             apply (matches_H_text _ _ _ _ _ eq_refl) in H;
             destruct H as (? & -> & ? & ?)
         | H : Matches (Re.Group "I" _) _ _ _ _ |- _ =>
             apply (matches_I_text _ _ _ _ _ eq_refl) in H;
             destruct H as (? & -> & ? & ?)
         | H : Matches (Re.Group "M" _) _ _ _ _ |- _ =>
             apply (matches_M_text _ _ _ _ _ eq_refl) in H;
             destruct H as (? & -> & ? & ?)
         | H : Matches (Re.Group "p" _) _ _ _ _ |- _ =>
             apply (matches_p_text _ _ _ _ _ eq_refl) in H;
             destruct H as (? & -> & ? & ? & ?)
         end.

Ltac fits_parts :=
  repeat first
         [ reflexivity
         | assumption
         | apply fits_hour12
         | apply fits_hour24
         | apply fits_minute
         | apply fits_colon
         | apply fits_blank
         | apply fits_marker
         | match goal with
           | H : forall x, PyStr.lstrip (_ ++ x) = _ |- PyStr.lstrip _ = _ => apply H
           end ].

Ltac format_text H :=
  match type of H with
  | Strptime.strptime ?data ?fmt = inr ?dt =>
      let p := eval vm_compute in (Strptime.pattern fmt) in
      match p with
      | Some ?re =>
          let g := fresh "g" in
          let Hm := fresh "Hm" in
          destruct (strptime_inv data fmt re dt eq_refl H) as (g & Hm & _);
          clear H; split_format
      end
  end.

Ltac some_template :=
  apply existsb_exists;
  first [ exists [Hour12; Colon; Minute; Blank; Marker];
          split; [simpl; tauto | solve [fits_parts]]
        | exists [Hour12; Colon; Minute; Marker];
          split; [simpl; tauto | solve [fits_parts]]
        | exists [Hour24; Colon; Minute];
          split; [simpl; tauto | solve [fits_parts]]
        | exists [Hour24; Minute];
          split; [simpl; tauto | solve [fits_parts]]
        | exists [Hour12; Blank; Marker];
          split; [simpl; tauto | solve [fits_parts]]
        | exists [Hour12; Minute; Blank; Marker];
          split; [simpl; tauto | solve [fits_parts]] ].

(** A string one of the six formats reads fits one of the six templates,
    read as parsed. *)
Lemma strptime_fits (data fmt : string) (dt : datetime) :
  In fmt parse_formats -> Strptime.strptime data fmt = inr dt ->
  admitted AsParsed data = true.
Proof.
  intros Hin H. unfold admitted. simpl in Hin.
  repeat (destruct Hin as [<- | Hin]; [format_text H; some_template|]).
  contradiction.
Qed.

Lemma parse_admitted (s : string) (t : time) :
  parse_target_time s = inr t -> admitted AsParsed (PyStr.strip s) = true.
Proof.
  intros Hparse. unfold parse_target_time in Hparse.
  destruct (try_formats_found _ _ _ _ Hparse)
    as (pre & fmt & post & dt & Hfmts & _ & Hfmt & _).
  apply (strptime_fits _ fmt dt); [|exact Hfmt].
  rewrite Hfmts. apply in_or_app. right. left. reflexivity.
Qed.

(** C5, as the spec states it, fails: "13 PM" and "7:5" fit none of the
    six templates as they are written (13 is no hour of the 12-hour
    clock and "HMM" has three digits; "MM" has two), yet the code reads
    the first as 1:03 PM and the second as 07:05. *)
Lemma C5_accepted_outside_the_templates :
  admitted AsWritten "13 PM" = false /\
  parse_target_time "13 PM" = inr (mktime 13 3 0 0) /\
  admitted AsWritten "7:5" = false /\
  parse_target_time "7:5" = inr (mktime 7 5 0 0).
Proof. repeat split. Qed.

(** C5 (amended): every input string that, after stripping, fits none of
    the six templates as the code reads them (hour in one or two digits,
    minute in one or two digits, marker in any letter case, any
    non-empty run of whitespace for the blank) makes [parse_target_time]
    raise [ValueError] and return no time. *)
Theorem C5_unmatched_input_raises (s : string)
        (Hnone : admitted AsParsed (PyStr.strip s) = false) :
  (exists cause,
      parse_target_time s =
        inl (ValueError ("Unrecognized time format: '" ++ PyStr.strip s ++ "'") cause)) /\
  (forall t, parse_target_time s <> inr t).
Proof.
  assert (Hno : forall t, parse_target_time s <> inr t).
  { intros t Ht. apply parse_admitted in Ht. congruence. }
  split; [|exact Hno].
  destruct (parse_target_time s) as [e|t] eqn:E.
  - destruct (parse_error_inv _ _ E) as (_ & cause & ->). eauto.
  - destruct (Hno t eq_refl).
Qed.

Lemma C5_unmatched_input_raises_witness :
  (exists cause,
      parse_target_time "noon" = inl (ValueError "Unrecognized time format: 'noon'" cause)) /\
  (exists cause,
      parse_target_time "25:00" = inl (ValueError "Unrecognized time format: '25:00'" cause)) /\
  (exists cause,
      parse_target_time " 7:99 AM " = inl (ValueError "Unrecognized time format: '7:99 AM'" cause)).
Proof.
  split; [|split].
  - apply (C5_unmatched_input_raises "noon"). reflexivity.
  - apply (C5_unmatched_input_raises "25:00"). reflexivity.
  - apply (C5_unmatched_input_raises " 7:99 AM "). reflexivity.
Defined.
